(** * The calendar root state of bits-ui

    A shallow embedding of [CalendarRootState], [CalendarCellState] and
    [CalendarDayState] from
    [packages/bits-ui/src/lib/bits/calendar/calendar.svelte.ts], together
    with the properties that the specification of the calendar states about
    selection, validity, placeholder synchronisation and paging. *)

From Stdlib Require Import ZArith List String DecimalString Bool Lia.
From Stdlib Require Import Permutation.
Import ListNotations.
Local Open Scope string_scope.
Local Open Scope list_scope.
Local Open Scope Z_scope.

(** ** The date capability

    [DateValue] comes from [@internationalized/date].  A value is a calendar
    day, and for the date-time variants a time of day; [isSameDay] looks at
    the day only, so two values can be the same day without being the same
    value.  Only the Gregorian calendar is represented. *)

Record DateValue : Type := mkDate {
  year : Z;
  month : Z;
  day : Z;
  timeOfDay : option Z   (* milliseconds since midnight, for date-times *)
}.

Definition CalendarDate (y m d : Z) : DateValue := mkDate y m d None.

Definition dayKey (d : DateValue) : Z * Z * Z := (year d, month d, day d).

Definition isSameDay (a b : DateValue) : bool :=
  (year a =? year b) && (month a =? month b) && (day a =? day b).

Definition isSameMonth (a b : DateValue) : bool :=
  (year a =? year b) && (month a =? month b).

(** Modelled from the spec: [isBefore] of [$lib/shared/date/utils.js], which
    is not among the sources.  The spec has dates "comparable by calendar
    day" and the bounds reject "a date before minValue or after maxValue":
    [isBefore a b] is the strict order of calendar days. *)
Definition isBefore (a b : DateValue) : bool :=
  (year a <? year b)
  || ((year a =? year b)
      && ((month a <? month b)
          || ((month a =? month b) && (day a <? day b)))).

(** ** Properties of the root *)

Inductive CalendarType : Type := single | multiple.

(** [value: DateValue | undefined | DateValue[]] *)
Inductive Value : Type :=
| Undefined
| One (d : DateValue)
| Many (ds : list DateValue).

Definition isArray (v : Value) : bool :=
  match v with Many _ => true | _ => false end.

Inductive Politeness : Type := polite | assertive.

(** What the root does to its collaborators: a call of
    [announcer.announce(message, politeness, duration?)] and a call of the
    [onDateSelect] callback. *)
Inductive Effect : Type :=
| Announce (message : string) (kind : Politeness) (duration : option Z)
| DateSelected.

(** The readable boxes of [CalendarRootStateProps], the build flag [DEV] of
    [esm-env], and the one method of the formatter that the root calls. *)
Record Props : Type := mkProps {
  DEV : bool;
  preventDeselect : bool;
  minValue : option DateValue;
  maxValue : option DateValue;
  disabled : bool;
  pagedNavigation : bool;
  numberOfMonths : nat;
  isDateDisabledProp : DateValue -> bool;
  isDateUnavailableProp : DateValue -> bool;
  type : CalendarType;
  readonly : bool;
  onDateSelect : bool;   (* is a callback installed: [onDateSelect?.current?.()] *)
  selectedDate : DateValue -> bool -> string
}.

(** [Month<DateValue>], as far as the root reads it: [month.value], the
    first day of the month. *)
Record Month : Type := mkMonth { value_of : DateValue }.

(** The writable boxes [value] and [placeholder], the [months] state, and
    the effects performed so far, oldest first. *)
Record Root : Type := mkRoot {
  value : Value;
  placeholder : DateValue;
  months : list Month;
  effects : list Effect
}.

Definition setValue (v : Value) (r : Root) : Root :=
  mkRoot v (placeholder r) (months r) (effects r).

Definition setPlaceholder (d : DateValue) (r : Root) : Root :=
  mkRoot (value r) d (months r) (effects r).

Definition setMonths (ms : list Month) (r : Root) : Root :=
  mkRoot (value r) (placeholder r) ms (effects r).

Definition perform (e : Effect) (r : Root) : Root :=
  mkRoot (value r) (placeholder r) (months r) (effects r ++ [e]).

(** ** Methods that change the root

    A method runs on a root and either returns a result with the root it
    left behind, or throws. *)

Inductive Outcome (A : Type) : Type :=
| Returned (a : A) (r : Root)
| Thrown (message : string).

Arguments Returned {A} a r.
Arguments Thrown {A} message.

Definition Method (A : Type) : Type := Root -> Outcome A.

Definition ret {A} (a : A) : Method A := fun r => Returned a r.

Definition bind {A B} (m : Method A) (k : A -> Method B) : Method B :=
  fun r => match m r with
           | Returned a r' => k a r'
           | Thrown msg => Thrown msg
           end.

Definition throw {A} (msg : string) : Method A := fun _ => Thrown msg.

Definition get : Method Root := fun r => Returned r r.

Definition modify (f : Root -> Root) : Method unit := fun r => Returned tt (f r).

Declare Scope method_scope.
Delimit Scope method_scope with method.
Notation "x <- m ;; k" := (bind m (fun x => k))
  (at level 100, m at next level, right associativity) : method_scope.
Notation "m ;; k" := (bind m (fun _ => k))
  (at level 100, right associativity) : method_scope.
Local Open Scope method_scope.

(** [prev.findIndex((d) => isSameDay(d, date)) === -1] *)
Definition absent (date : DateValue) (prev : list DateValue) : bool :=
  negb (existsb (fun d => isSameDay d date) prev).

(** [#handleMultipleUpdate(prev, date)].  The parameter is typed
    [DateValue[] | undefined]; its run-time test [Array.isArray] is kept, so
    [prev] ranges over all stored values. *)
Definition handleMultipleUpdate (p : Props) (prev : Value) (date : DateValue)
  : Method (option (list DateValue)) :=
  match prev with
  | Undefined => ret (Some [date])
  | One _ =>
      if DEV p then throw "Invalid value for multiple prop."
      else ret None
  | Many ds =>
      if absent date ds then ret (Some (ds ++ [date]))
      else if preventDeselect p then ret (Some ds)
      else
        let next := filter (fun d => negb (isSameDay d date)) ds in
        match next with
        | [] => modify (setPlaceholder date) ;; ret None
        | _ => ret (Some next)
        end
  end.

(** [#handleSingleUpdate(prev, date)].  With an array for [prev] a
    development build throws; a production build goes on: an array is
    truthy, and unless [preventDeselect] is set [isSameDay] is applied to
    the array, which has no calendar fields to read and makes the date
    library throw a [TypeError]. *)
Definition handleSingleUpdate (p : Props) (prev : Value) (date : DateValue)
  : Method (option DateValue) :=
  match prev with
  | Many _ =>
      if DEV p then throw "Invalid value for single prop."
      else if preventDeselect p then ret (Some date)
      else throw "TypeError"
  | Undefined => ret (Some date)
  | One prevDate =>
      if negb (preventDeselect p) && isSameDay prevDate date
      then modify (setPlaceholder date) ;; ret None
      else ret (Some date)
  end.

(** What [#handleMultipleUpdate] returns, as a stored value. *)
Definition ofDates (next : option (list DateValue)) : Value :=
  match next with Some ds => Many ds | None => Undefined end.

Definition emptyMessage : string := "Selected date is now empty.".

Definition selectedMessage (p : Props) (d : DateValue) : string :=
  ("Selected Date: " ++ selectedDate p d false)%string.

(** [handleCellClick(_, date)] *)
Definition handleCellClick (p : Props) (date : DateValue) : Method unit :=
  if readonly p then ret tt
  else if isDateDisabledProp p date || isDateUnavailableProp p date then ret tt
  else
    r <- get ;;
    let prev := value r in
    match type p with
    | multiple =>
        match prev with
        | Many _ | Undefined =>
            next <- handleMultipleUpdate p prev date ;;
            modify (setValue (ofDates next))
        | One _ => ret tt
        end
    | single =>
        if negb (isArray prev) then
          next <- handleSingleUpdate p prev date ;;
          match next with
          | None =>
              modify (perform (Announce emptyMessage polite (Some 5000))) ;;
              modify (setValue Undefined)
          | Some d =>
              modify (perform (Announce (selectedMessage p d) polite None)) ;;
              modify (setValue (One d)) ;;
              if onDateSelect p then modify (perform DateSelected) else ret tt
          end
        else ret tt
    end.

(** [isDateDisabled(date)] of the root. *)
Definition isDateDisabled (p : Props) (date : DateValue) : bool :=
  if isDateDisabledProp p date || disabled p then true
  else if match minValue p with
          | Some lo => isBefore date lo
          | None => false
          end then true
  else if match maxValue p with
          | Some hi => isBefore hi date
          | None => false
          end then true
  else false.

(** [isDateSelected(date)] of the root. *)
Definition isDateSelected (r : Root) (date : DateValue) : bool :=
  match value r with
  | Many ds => existsb (fun d => isSameDay d date) ds
  | Undefined => false
  | One d => isSameDay d date
  end.

(** [CalendarDayState.#onclick]: the cell's [isDisabled] is the root's
    [isDateDisabled] of the cell's date. *)
Definition onclick (p : Props) (date : DateValue) : Method unit :=
  if isDateDisabled p date then ret tt
  else handleCellClick p date.

(** The callback given to [watch(this.value, ...)] in the constructor; it
    runs after the stored value has changed. *)
Definition syncPlaceholder (r : Root) : Root :=
  match value r with
  | Many ds =>
      match ds with
      | [] => r
      | _ =>
          match nth_error ds (List.length ds - 1)%nat with
          | Some lastValue => setPlaceholder lastValue r
          | None => r
          end
      end
  | One d => setPlaceholder d r
  | Undefined => r
  end.

(** ** Paging

    [nextPage] and [prevPage] hand over to [handleCalendarNextPage] and
    [handleCalendarPrevPage] of [$lib/shared/date/calendar-helpers.svelte.js],
    which are not among the sources, and these build on the month
    arithmetic of the date library. *)

Definition isLeapYear (y : Z) : bool :=
  (y mod 4 =? 0) && (negb (y mod 100 =? 0) || (y mod 400 =? 0)).

Definition daysInMonth (y m : Z) : Z :=
  if m =? 2 then (if isLeapYear y then 29 else 28)
  else if (m =? 4) || (m =? 6) || (m =? 9) || (m =? 11) then 30
  else 31.

(** Months since year 0, January being month 1. *)
Definition monthIndex (d : DateValue) : Z := year d * 12 + (month d - 1).

(** Modelled from the spec: [add({ months })] and [subtract({ months })] of
    the date capability, "calendar-safe arithmetic (day-of-month clamps to
    the target month's length)". *)
Definition addMonths (d : DateValue) (n : Z) : DateValue :=
  let i := monthIndex d + n in
  let y := i / 12 in
  let m := i mod 12 + 1 in
  mkDate y m (Z.min (day d) (daysInMonth y m)) (timeOfDay d).

Definition subtractMonths (d : DateValue) (n : Z) : DateValue :=
  addMonths d (- n).

(** [set({ day: 1 })] *)
Definition startOfMonth (d : DateValue) : DateValue :=
  mkDate (year d) (month d) 1 (timeOfDay d).

(** Modelled from the spec: the Month Grid Builder [createMonths], which
    "produces monthCount consecutive months starting at placeholder's
    month", each with its first day for [value].  The week rows of a month
    are left out: no property below reads them. *)
Definition createMonths (p : Props) (dateObj : DateValue) : list Month :=
  map (fun i => mkMonth (startOfMonth (addMonths dateObj (Z.of_nat i))))
      (seq 0 (numberOfMonths p)).

(** [visibleMonths = this.months.map((month) => month.value)] *)
Definition visibleMonths (r : Root) : list DateValue :=
  map value_of (months r).

(** [isOutsideVisibleMonths(date)] *)
Definition isOutsideVisibleMonths (r : Root) (date : DateValue) : bool :=
  negb (existsb (fun m => isSameMonth date m) (visibleMonths r)).

(** "If pagedNavigation is set, jump by exactly monthCount months;
    otherwise jump by exactly one month." *)
Definition pageJump (p : Props) : Z :=
  if pagedNavigation p then Z.of_nat (numberOfMonths p) else 1.

(** [Month.value] is the first day of a month. *)
Definition isMonthValue (m : DateValue) : bool :=
  (day m =? 1) && (1 <=? month m) && (month m <=? 12).

(** Modelled from the spec: [handleCalendarNextPage].  [nextPage] hands it
    the props, the two setters and the months, and not the placeholder.
    It is to "advance the placeholder" by the page jump and to rebuild "the
    month window from the new placeholder using the Month Grid Builder":
    it pages from the first of the months it is handed, and with no months
    it has nothing to page from. *)
Definition handleCalendarNextPage
           (p : Props)
           (setMonths : list Month -> Method unit)
           (setPlaceholder : DateValue -> Method unit)
           (months : list Month) : Method unit :=
  match months with
  | [] => ret tt
  | firstMonth :: _ =>
      let next := addMonths (value_of firstMonth) (pageJump p) in
      setPlaceholder next ;; setMonths (createMonths p next)
  end.

(** Modelled from the spec: [handleCalendarPrevPage], which is to "retreat
    the placeholder" in the same way, from what [prevPage] hands it. *)
Definition handleCalendarPrevPage
           (p : Props)
           (setMonths : list Month -> Method unit)
           (setPlaceholder : DateValue -> Method unit)
           (months : list Month) : Method unit :=
  match months with
  | [] => ret tt
  | firstMonth :: _ =>
      let prev := subtractMonths (value_of firstMonth) (pageJump p) in
      setPlaceholder prev ;; setMonths (createMonths p prev)
  end.

(** [nextPage]: [setMonths] is [#setMonths], [setPlaceholder] writes the
    box of the placeholder, [months] is [this.months]. *)
Definition nextPage (p : Props) : Method unit :=
  r <- get ;;
  handleCalendarNextPage p
    (fun months => modify (setMonths months))
    (fun date => modify (setPlaceholder date))
    (months r).

(** [prevPage], with the same arguments. *)
Definition prevPage (p : Props) : Method unit :=
  r <- get ;;
  handleCalendarPrevPage p
    (fun months => modify (setMonths months))
    (fun date => modify (setPlaceholder date))
    (months r).

(** ** Runs of the calendar

    A step is a call of [handleCellClick] that returns, or a run of the
    callback that [watch] holds for the value. *)

Inductive step (p : Props) : Root -> Root -> Prop :=
| step_click : forall r date r',
    handleCellClick p date r = Returned tt r' -> step p r r'
| step_watch : forall r, step p r (syncPlaceholder r).

Inductive reaches (p : Props) : Root -> Root -> Prop :=
| reaches_here : forall r, reaches p r r
| reaches_step : forall r r' r'',
    reaches p r r' -> step p r' r'' -> reaches p r r''.

(** No two entries of a stored value are the same day. *)
Definition distinctDays (v : Value) : Prop :=
  match v with
  | Many ds => NoDup (map dayKey ds)
  | _ => True
  end.

(** The stored value has the shape that the [type] prop asks for. *)
Definition shapeMatches (t : CalendarType) (v : Value) : bool :=
  match t, v with
  | single, Many _ => false
  | multiple, One _ => false
  | _, _ => true
  end.

(** The click gets past the guards of [handleCellClick] in single mode. *)
Definition heeded (p : Props) (date : DateValue) (r : Root) : bool :=
  negb (readonly p)
  && negb (isDateDisabledProp p date || isDateUnavailableProp p date)
  && negb (isArray (value r)).

(** The click is on the day that is selected, and deselecting is allowed. *)
Definition deselects (p : Props) (date : DateValue) (r : Root) : bool :=
  match value r with
  | One prev => negb (preventDeselect p) && isSameDay prev date
  | _ => false
  end.

Definition committed (p : Props) (date : DateValue) (r : Root) : Root :=
  mkRoot (One date) (placeholder r) (months r)
         (effects r ++ Announce (selectedMessage p date) polite None
                       :: (if onDateSelect p then [DateSelected] else [])).

Definition cleared (date : DateValue) (r : Root) : Root :=
  mkRoot Undefined date (months r)
         (effects r ++ [Announce emptyMessage polite (Some 5000)]).

(** A run of clicks, one after the other. *)
Fixpoint clicks (p : Props) (dates : list DateValue) : Method unit :=
  match dates with
  | [] => ret tt
  | date :: rest => handleCellClick p date ;; clicks p rest
  end.

(** The entries of a stored value, none for [undefined]. *)
Definition entries (v : Value) : list DateValue :=
  match v with
  | Many ds => ds
  | One d => [d]
  | Undefined => []
  end.

(** The first day of the month with index [i]. *)
Definition monthStart (i : Z) (time : option Z) : DateValue :=
  mkDate (i / 12) (i mod 12 + 1) 1 time.

(** ** Sample roots and props *)

Definition noDate : DateValue -> bool := fun _ => false.

Definition numeral (z : Z) : string := NilZero.string_of_int (Z.to_int z).

(** A formatter for the samples: year, month and day in figures. *)
Definition isoDate (d : DateValue) (includeTime : bool) : string :=
  (numeral (year d) ++ "-" ++ numeral (month d) ++ "-" ++ numeral (day d))%string.

Definition sampleProps (t : CalendarType) : Props :=
  {| DEV := true; preventDeselect := false;
     minValue := None; maxValue := None; disabled := false;
     pagedNavigation := true; numberOfMonths := 2;
     isDateDisabledProp := noDate; isDateUnavailableProp := noDate;
     type := t; readonly := false; onDateSelect := true;
     selectedDate := isoDate |}.

Definition emptyRoot (p : Props) (at_ : DateValue) : Root :=
  mkRoot Undefined at_ (createMonths p at_) [].

Definition januaryProps : Props :=
  {| DEV := false; preventDeselect := false;
     minValue := Some (CalendarDate 2024 1 10);
     maxValue := Some (CalendarDate 2024 1 20);
     disabled := false; pagedNavigation := false; numberOfMonths := 1;
     isDateDisabledProp := noDate; isDateUnavailableProp := noDate;
     type := single; readonly := false; onDateSelect := false;
     selectedDate := isoDate |}.

Definition keepProps : Props :=
  {| DEV := false; preventDeselect := true;
     minValue := None; maxValue := None;
     disabled := false; pagedNavigation := false; numberOfMonths := 1;
     isDateDisabledProp := noDate; isDateUnavailableProp := noDate;
     type := single; readonly := false; onDateSelect := true;
     selectedDate := isoDate |}.

Definition readonlyProps : Props :=
  {| DEV := false; preventDeselect := false;
     minValue := None; maxValue := None;
     disabled := false; pagedNavigation := false; numberOfMonths := 1;
     isDateDisabledProp := noDate; isDateUnavailableProp := noDate;
     type := multiple; readonly := true; onDateSelect := false;
     selectedDate := isoDate |}.

(** ** The rest of the root, the cell and the day *)

(** The loop of [isInvalid] over an array: it leaves with [true] at the
    first date that a matcher accepts. *)
Fixpoint anyRejected (p : Props) (dates : list DateValue) : bool :=
  match dates with
  | [] => false
  | date :: rest =>
      if isDateDisabledProp p date then true
      else if isDateUnavailableProp p date then true
      else anyRejected p rest
  end.

(** [isInvalid] of the root. *)
Definition isInvalid (p : Props) (r : Root) : bool :=
  match value r with
  | Many ds =>
      match ds with
      | [] => false
      | _ => anyRejected p ds
      end
  | Undefined => false
  | One v =>
      if isDateDisabledProp p v then true
      else if isDateUnavailableProp p v then true
      else false
  end.

(** [CalendarCellState]: a cell has the props [date] and [month] and reads
    the root.  [disableDaysOutsideMonth] is a readable box of the root. *)
Module CalendarCellState.

Record t : Type := mk { date : DateValue; month : DateValue }.

Definition isDisabled (p : Props) (c : t) : bool := isDateDisabled p (date c).

Definition isUnvailable (p : Props) (c : t) : bool :=
  isDateUnavailableProp p (date c).

Definition isOutsideMonth (c : t) : bool := negb (isSameMonth (date c) (month c)).

Definition isOutsideVisibleMonths (r : Root) (c : t) : bool :=
  isOutsideVisibleMonths r (date c).

Definition isFocusedDate (r : Root) (c : t) : bool :=
  isSameDay (date c) (placeholder r).

Definition isSelectedDate (r : Root) (c : t) : bool := isDateSelected r (date c).

Definition ariaDisabled (p : Props) (disableDaysOutsideMonth : bool) (c : t)
  : bool :=
  isDisabled p c || (isOutsideMonth c && disableDaysOutsideMonth)
  || isUnvailable p c.

(** The condition under ["data-disabled"] in [sharedDataAttrs]. *)
Definition dataDisabled (p : Props) (disableDaysOutsideMonth : bool) (c : t)
  : bool :=
  isDisabled p c || (isOutsideMonth c && disableDaysOutsideMonth).

End CalendarCellState.

(** [CalendarDayState]: [#tabindex], with [None] for [undefined]; its
    [#onclick] is [onclick] above, at the date of the cell. *)
Module CalendarDayState.

Definition tabindex (p : Props) (disableDaysOutsideMonth : bool) (r : Root)
           (c : CalendarCellState.t) : option Z :=
  if CalendarCellState.isFocusedDate r c then Some 0
  else if (CalendarCellState.isOutsideMonth c && disableDaysOutsideMonth)
          || CalendarCellState.isDisabled p c
       then None
       else Some (-1).

End CalendarDayState.

(** The click gets past the guards of [handleCellClick] and finds a value
    of the shape of the mode. *)
Definition accepted (p : Props) (date : DateValue) (r : Root) : bool :=
  negb (readonly p)
  && negb (isDateDisabledProp p date || isDateUnavailableProp p date)
  && shapeMatches (type p) (value r).

(** The dates of [ds] that are not of the day of [date]:
    [prev.filter((d) => !isSameDay(d, date))]. *)
Definition otherDays (date : DateValue) (ds : list DateValue) : list DateValue :=
  filter (fun d => negb (isSameDay d date)) ds.

(** The ways of [handleCellClick], one constructor for each way through
    it. *)
Inductive clicked (p : Props) (date : DateValue) (r : Root) : Root -> Prop :=
| clicked_ignored :
    accepted p date r = false -> clicked p date r r
| clicked_commit :
    accepted p date r = true -> type p = single ->
    deselects p date r = false -> clicked p date r (committed p date r)
| clicked_clear :
    accepted p date r = true -> type p = single ->
    deselects p date r = true -> clicked p date r (cleared date r)
| clicked_append :
    accepted p date r = true -> type p = multiple ->
    isDateSelected r date = false ->
    clicked p date r (setValue (Many (entries (value r) ++ [date])) r)
| clicked_kept :
    accepted p date r = true -> type p = multiple ->
    isDateSelected r date = true -> preventDeselect p = true ->
    clicked p date r r
| clicked_removed :
    accepted p date r = true -> type p = multiple ->
    isDateSelected r date = true -> preventDeselect p = false ->
    otherDays date (entries (value r)) <> [] ->
    clicked p date r (setValue (Many (otherDays date (entries (value r)))) r)
| clicked_emptied :
    accepted p date r = true -> type p = multiple ->
    isDateSelected r date = true -> preventDeselect p = false ->
    otherDays date (entries (value r)) = [] ->
    clicked p date r (mkRoot Undefined date (months r) (effects r)).

(** A matcher for the samples: it accepts the first of a month. *)
Definition firstOfMonth (d : DateValue) : bool := day d =? 1.

Definition pickyProps (t : CalendarType) (keep : bool) : Props :=
  {| DEV := false; preventDeselect := keep;
     minValue := None; maxValue := None; disabled := false;
     pagedNavigation := false; numberOfMonths := 1;
     isDateDisabledProp := firstOfMonth; isDateUnavailableProp := noDate;
     type := t; readonly := false; onDateSelect := true;
     selectedDate := isoDate |}.

(** ** The groups of a toolbar

    [ToolbarGroupSingleState] and [ToolbarGroupMultipleState], which the
    sources have below the progress bar in [progress.svelte.ts]. *)
Module Toolbar.

(** The group with its box [#value]: a string for a single group, an array
    of strings for a multiple group. *)
Inductive Group : Type :=
| Single (value : string)
| Multiple (value : list string).

Definition isMulti (g : Group) : bool :=
  match g with Single _ => false | Multiple _ => true end.

Definition includesItem (g : Group) (item : string) : bool :=
  match g with
  | Single value => String.eqb value item
  | Multiple value => existsb (fun v => String.eqb v item) value
  end.

Definition toggleItem (g : Group) (item : string) : Group :=
  match g with
  | Single _ =>
      if includesItem g item then Single "" else Single item
  | Multiple value =>
      if includesItem g item
      then Multiple (filter (fun v => negb (String.eqb v item)) value)
      else Multiple (value ++ [item])
  end.

Definition anyPressed (g : Group) : bool :=
  match g with
  | Single value => negb (String.eqb value "")
  | Multiple value => (0 <? List.length value)%nat
  end.

End Toolbar.

(** ** Typeahead

    [wrapArray] and [getNextMatch] of the typeahead helper.  Strings are
    sequences of characters of one code unit each. *)
Module Typeahead.

(** [array.indexOf(x)], -1 when [x] is not in the array. *)
Fixpoint indexOfFrom (x : string) (array : list string) (from : Z) : Z :=
  match array with
  | [] => -1
  | y :: rest => if String.eqb y x then from else indexOfFrom x rest (from + 1)
  end.

Definition indexOf (array : list string) (x : string) : Z :=
  indexOfFrom x array 0.

(** [wrapArray(array, startIndex)], for a start index that is a natural
    number; [array[(startIndex + index) % array.length]] is then an element
    of the array. *)
Definition wrapArray {T : Type} (array : list T) (startIndex : nat) : list T :=
  match array with
  | [] => []
  | first :: _ =>
      map (fun index =>
             nth ((startIndex + index) mod List.length array) array first)
          (seq 0 (List.length array))
  end.

(** [search.length > 1 && Array.from(search).every((char) => char === search[0])] *)
Definition isRepeated (search : string) : bool :=
  match search with
  | EmptyString => false
  | String first _ =>
      (1 <? String.length search)%nat
      && forallb (fun char => Ascii.eqb char first) (list_ascii_of_string search)
  end.

(** [isRepeated ? search[0]! : search] *)
Definition normalize (search : string) : string :=
  if isRepeated search
  then match search with
       | String first _ => String first EmptyString
       | EmptyString => EmptyString
       end
  else search.

(** [v !== currentMatch], for a current match that may be [undefined]. *)
Definition differs (currentMatch : option string) (v : string) : bool :=
  match currentMatch with
  | Some current => negb (String.eqb v current)
  | None => true
  end.

(** [getNextMatch(values, search, currentMatch?)]; [toLowerCase] is the
    method of the strings. *)
Definition getNextMatch (toLowerCase : string -> string)
           (values : list string) (search : string)
           (currentMatch : option string) : option string :=
  let normalizedSearch := normalize search in
  let currentMatchIndex :=
    match currentMatch with
    | Some current =>
        if String.eqb current "" then -1 else indexOf values current
    | None => -1
    end in
  let wrappedValues :=
    wrapArray values (Z.to_nat (Z.max currentMatchIndex 0)) in
  let excludeCurrentMatch := (String.length normalizedSearch =? 1)%nat in
  let wrappedValues :=
    if excludeCurrentMatch
    then filter (differs currentMatch) wrappedValues
    else wrappedValues in
  let nextMatch :=
    find (fun value =>
            String.prefix (toLowerCase normalizedSearch) (toLowerCase value))
         wrappedValues in
  match nextMatch with
  | Some next => if differs currentMatch next then Some next else None
  | None => None
  end.

(** The string of [n] times the character [c]. *)
Fixpoint repeated (c : Ascii.ascii) (n : nat) : string :=
  match n with
  | O => EmptyString
  | S n' => String c (repeated c n')
  end.

(** A lower-casing for the samples: the letters A to Z. *)
Definition lowerAscii (c : Ascii.ascii) : Ascii.ascii :=
  let n := Ascii.nat_of_ascii c in
  if ((65 <=? n) && (n <=? 90))%nat then Ascii.ascii_of_nat (n + 32) else c.

Fixpoint lower (s : string) : string :=
  match s with
  | EmptyString => EmptyString
  | String c rest => String (lowerAscii c) (lower rest)
  end.

End Typeahead.

(** ** The triggers of an accordion

    The keys of [AccordionTriggerState.#onkeydown]. *)
Module Accordion.

(** [e.key], as far as the handler tells keys apart. *)
Inductive Key : Type :=
| ARROW_DOWN | ARROW_UP | HOME | END | SPACE | ENTER | OtherKey.

(** What the handler does: nothing, [updateValue()] of the item, or
    [focus()] on a trigger. *)
Inductive Action (T : Type) : Type :=
| Nothing
| UpdateValue
| Focus (trigger : T).

Arguments Nothing {T}.
Arguments UpdateValue {T}.
Arguments Focus {T} trigger.

(** [candidateItems.indexOf(itemEl)], triggers being told apart by a
    number. *)
Fixpoint indexOfFrom (itemEl : nat) (items : list nat) (from : Z) : Z :=
  match items with
  | [] => -1
  | x :: rest => if Nat.eqb x itemEl then from else indexOfFrom itemEl rest (from + 1)
  end.

Definition indexOf (items : list nat) (itemEl : nat) : Z :=
  indexOfFrom itemEl items 0.

(** [keyToIndex[e.key]]; [%] is the remainder of JavaScript, with the sign
    of the dividend. *)
Definition keyToIndex (key : Key) (currentIndex length : Z) : option Z :=
  match key with
  | ARROW_DOWN => Some (Z.rem (currentIndex + 1) length)
  | ARROW_UP => Some (Z.rem (currentIndex - 1 + length) length)
  | HOME => Some 0
  | END => Some (length - 1)
  | _ => None
  end.

(** [candidateItems[index]], [undefined] outside the array. *)
Definition at_ (items : list nat) (index : Z) : option nat :=
  if index <? 0 then None else nth_error items (Z.to_nat index).

(** The handler, once the root and the trigger are found in the document:
    [candidateItems] are the triggers that are not disabled, in the order
    of the document, and [itemEl] is this trigger. *)
Definition onkeydown (isDisabled : bool) (key : Key)
           (candidateItems : list nat) (itemEl : nat) : Action nat :=
  if isDisabled then Nothing
  else match key with
       | OtherKey => Nothing
       | SPACE | ENTER => UpdateValue
       | _ =>
           match candidateItems with
           | [] => Nothing
           | _ =>
               let currentIndex := indexOf candidateItems itemEl in
               match keyToIndex key currentIndex
                                (Z.of_nat (List.length candidateItems)) with
               | Some index =>
                   match at_ candidateItems index with
                   | Some trigger => Focus trigger
                   | None => Nothing
                   end
               | None => Nothing
               end
           end
       end.

End Accordion.

(** ** Same day and before *)

Lemma isSameDay_dayKey (a b : DateValue) :
  isSameDay a b = true <-> dayKey a = dayKey b.
Proof.
  unfold isSameDay, dayKey. rewrite !andb_true_iff, !Z.eqb_eq. split.
  - intros [[Hy Hm] Hd]. now rewrite Hy, Hm, Hd.
  - intros H. injection H as Hy Hm Hd. auto.
Qed.

Lemma isSameDay_refl (a : DateValue) : isSameDay a a = true.
Proof. now apply isSameDay_dayKey. Qed.

Lemma isSameDay_sym (a b : DateValue) : isSameDay a b = isSameDay b a.
Proof.
  unfold isSameDay.
  now rewrite (Z.eqb_sym (year a)), (Z.eqb_sym (month a)), (Z.eqb_sym (day a)).
Qed.

Lemma isSameDay_not_before (a b : DateValue) :
  isSameDay a b = true -> isBefore a b = false.
Proof.
  intros H. apply isSameDay_dayKey in H. unfold dayKey in H.
  injection H as Hy Hm Hd. unfold isBefore. rewrite Hy, Hm, Hd.
  now rewrite !Z.ltb_irrefl, !andb_false_r.
Qed.

Lemma absent_spec (date : DateValue) (ds : list DateValue) :
  absent date ds = true <-> ~ In (dayKey date) (map dayKey ds).
Proof.
  unfold absent. rewrite negb_true_iff, <- not_true_iff_false.
  rewrite existsb_exists, in_map_iff. split; intros H [d Hd]; apply H; exists d.
  - destruct Hd as [Hk Hin]. split; [assumption|]. now apply isSameDay_dayKey.
  - destruct Hd as [Hin Hs]. split; [|assumption]. now apply isSameDay_dayKey.
Qed.

(** ** Running a method *)

Ltac run :=
  unfold onclick, handleCellClick, handleSingleUpdate, handleMultipleUpdate,
    nextPage, prevPage, bind, ret, get, modify, throw in *;
  simpl in *.

(** [handleCellClick] returns, in a development build as well as in a
    production build. *)
Lemma handleCellClick_returns (p : Props) (date : DateValue) (r : Root) :
  exists r', handleCellClick p date r = Returned tt r'.
Proof.
  run. destruct (readonly p); [eauto|].
  destruct (isDateDisabledProp p date || isDateUnavailableProp p date); [eauto|].
  destruct (type p), (value r) as [|prev|ds]; simpl; eauto.
  - destruct (onDateSelect p); eauto.
  - destruct (negb (preventDeselect p) && isSameDay prev date); simpl;
      [eauto|destruct (onDateSelect p); eauto].
  - destruct (absent date ds); [eauto|].
    destruct (preventDeselect p); [eauto|].
    destruct (filter _ ds); simpl; eauto.
Qed.

(** [handleCellClick] by itself heeds [readonly] and the two matchers. *)
Lemma handleCellClick_guards (p : Props) (date : DateValue) (r : Root) :
  readonly p = true \/ isDateDisabledProp p date = true
    \/ isDateUnavailableProp p date = true ->
  handleCellClick p date r = Returned tt r.
Proof.
  intros H. run. destruct (readonly p); [reflexivity|].
  destruct H as [H|[H|H]]; [discriminate| |]; rewrite H;
    now rewrite ?orb_true_r.
Qed.

Lemma isDateDisabled_matcher (p : Props) (date : DateValue) :
  isDateDisabled p date = false -> isDateDisabledProp p date = false.
Proof.
  unfold isDateDisabled. destruct (isDateDisabledProp p date); simpl; auto.
Qed.

(** ** Clicks that change nothing *)

(** C1. A click on a day whose date is disabled (by the matcher, by the
    calendar's [disabled] flag or by lying before [minValue] or after
    [maxValue]) or unavailable, or a click while [readonly] is set, leaves
    the root as it was: selection, placeholder, months, and nothing is
    announced.  The day stops the click on a disabled date; a click that
    reaches [handleCellClick] is stopped there when the calendar is
    read-only or one of the two matchers accepts the date.  So with
    [minValue] 2024-01-10 a click on 2024-01-05 in single mode leaves the
    selection unchanged. *)
Theorem click_rejected_is_noop :
  (forall (p : Props) (date : DateValue) (r : Root),
      isDateDisabled p date = true \/ isDateUnavailableProp p date = true
        \/ readonly p = true ->
      onclick p date r = Returned tt r)
  /\ (forall (p : Props) (date : DateValue) (r : Root),
        readonly p = true \/ isDateDisabledProp p date = true
          \/ isDateUnavailableProp p date = true ->
        handleCellClick p date r = Returned tt r)
  /\ (forall (p : Props) (r : Root),
        type p = single -> minValue p = Some (CalendarDate 2024 1 10) ->
        onclick p (CalendarDate 2024 1 5) r = Returned tt r).
Proof.
  assert (G : forall p date r,
             isDateDisabled p date = true \/ isDateUnavailableProp p date = true
               \/ readonly p = true ->
             onclick p date r = Returned tt r).
  { intros p date r H. unfold onclick.
    destruct (isDateDisabled p date) eqn:E; [reflexivity|].
    apply handleCellClick_guards.
    destruct H as [H|[H|H]]; [discriminate|auto|auto]. }
  split; [exact G|]. split; [exact handleCellClick_guards|].
  intros p r _ Hmin.
  apply G. left. unfold isDateDisabled. rewrite Hmin.
  destruct (isDateDisabledProp p _ || disabled p); reflexivity.
Qed.

Lemma click_rejected_is_noop_witness :
  let p := januaryProps in
  let r := mkRoot (One (CalendarDate 2024 1 12)) (CalendarDate 2024 1 12) [] [] in
  isDateDisabled p (CalendarDate 2024 1 5) = true
  /\ onclick p (CalendarDate 2024 1 5) r = Returned tt r
  /\ handleCellClick readonlyProps (CalendarDate 2024 1 12) r = Returned tt r
  /\ onclick p (CalendarDate 2024 1 5) (setValue Undefined r)
     = Returned tt (setValue Undefined r).
Proof.
  intros p r. destruct click_rejected_is_noop as [Day [Root Scenario]].
  split; [reflexivity|]. split; [|split].
  - apply (Day p (CalendarDate 2024 1 5) r). left. reflexivity.
  - apply (Root readonlyProps (CalendarDate 2024 1 12) r). left. reflexivity.
  - apply (Scenario p (setValue Undefined r)); reflexivity.
Defined.

(** The bounds and the [disabled] flag are the day's business:
    [handleCellClick], called on its own, commits a date before [minValue]. *)
Example handleCellClick_leaves_bounds_to_the_day :
  let r := mkRoot Undefined (CalendarDate 2024 1 12) [] [] in
  isDateDisabled januaryProps (CalendarDate 2024 1 5) = true
  /\ handleCellClick januaryProps (CalendarDate 2024 1 5) r
     = Returned tt
         (mkRoot (One (CalendarDate 2024 1 5)) (CalendarDate 2024 1 12) []
                 [Announce "Selected Date: 2024-1-5" polite None]).
Proof. split; vm_compute; reflexivity. Qed.

(** ** A stored value of the wrong shape *)

(** C2, as the code has it.  When the stored value does not have the shape
    of the configured mode, [handleCellClick] returns without a change to
    the root, in a development build as in a production build: its own
    tests of [Array.isArray(prev)] keep such a value away from the two
    update helpers.  The errors of a development build belong to these
    helpers, which throw when they are handed such a value. *)
Theorem shape_mismatch_is_silent :
  (forall (p : Props) (date : DateValue) (r : Root),
      shapeMatches (type p) (value r) = false ->
      handleCellClick p date r = Returned tt r)
  /\ (forall (p : Props) (stored date : DateValue) (r : Root),
        DEV p = true ->
        handleMultipleUpdate p (One stored) date r
        = Thrown "Invalid value for multiple prop.")
  /\ (forall (p : Props) (stored : list DateValue) (date : DateValue) (r : Root),
        DEV p = true ->
        handleSingleUpdate p (Many stored) date r
        = Thrown "Invalid value for single prop.").
Proof.
  split; [|split].
  - intros p date r H. run. destruct (readonly p); [reflexivity|].
    destruct (isDateDisabledProp p date || isDateUnavailableProp p date);
      [reflexivity|].
    destruct (type p), (value r); simpl in *; try discriminate; reflexivity.
  - intros p stored date r H. run. now rewrite H.
  - intros p stored date r H. run. now rewrite H.
Qed.

Lemma shape_mismatch_is_silent_witness :
  let p := sampleProps single in
  let r := mkRoot (Many [CalendarDate 2024 3 1]) (CalendarDate 2024 3 1) [] [] in
  handleCellClick p (CalendarDate 2024 3 2) r = Returned tt r
  /\ handleMultipleUpdate p (One (CalendarDate 2024 3 1)) (CalendarDate 2024 3 2) r
     = Thrown "Invalid value for multiple prop."
  /\ handleSingleUpdate p (Many [CalendarDate 2024 3 1]) (CalendarDate 2024 3 2) r
     = Thrown "Invalid value for single prop.".
Proof.
  intros p r. split; [|split].
  - apply (proj1 shape_mismatch_is_silent p (CalendarDate 2024 3 2) r).
    reflexivity.
  - apply (proj1 (proj2 shape_mismatch_is_silent) p); reflexivity.
  - apply (proj2 (proj2 shape_mismatch_is_silent) p); reflexivity.
Defined.

(** In a development build a click on a root with a value of the wrong
    shape throws nothing: an array in single mode, a single date in
    multiple mode. *)
Lemma shape_mismatch_dev_no_error :
  let d1 := CalendarDate 2024 3 1 in
  let d2 := CalendarDate 2024 3 2 in
  let r1 := mkRoot (Many [d1]) d1 [] [] in
  let r2 := mkRoot (One d1) d1 [] [] in
  DEV (sampleProps single) = true
  /\ shapeMatches single (value r1) = false
  /\ handleCellClick (sampleProps single) d2 r1 = Returned tt r1
  /\ DEV (sampleProps multiple) = true
  /\ shapeMatches multiple (value r2) = false
  /\ handleCellClick (sampleProps multiple) d2 r2 = Returned tt r2.
Proof. repeat split. Qed.

(** ** Disabled dates *)

(** C7. [isDateDisabled] holds of a date exactly when the matcher accepts
    it, or the calendar is disabled, or [minValue] is set and the date is
    before it, or [maxValue] is set and the date is after it.  The bounds
    themselves are allowed: a date on the day of [minValue] is not before
    it, and a date on the day of [maxValue] is not after it. *)
Theorem isDateDisabled_spec :
  (forall (p : Props) (d : DateValue),
      isDateDisabled p d = true <->
      (isDateDisabledProp p d = true
       \/ disabled p = true
       \/ (exists lo, minValue p = Some lo /\ isBefore d lo = true)
       \/ (exists hi, maxValue p = Some hi /\ isBefore hi d = true)))
  /\ (forall (p : Props) (d lo : DateValue),
        minValue p = Some lo -> isSameDay d lo = true -> isBefore d lo = false)
  /\ (forall (p : Props) (d hi : DateValue),
        maxValue p = Some hi -> isSameDay d hi = true -> isBefore hi d = false)
  /\ (forall (p : Props) (d : DateValue),
        isDateDisabledProp p d = false -> disabled p = false ->
        (exists lo, minValue p = Some lo /\ isSameDay d lo = true)
          \/ (exists hi, maxValue p = Some hi /\ isSameDay d hi = true) ->
        (forall lo hi, minValue p = Some lo -> maxValue p = Some hi ->
                       isBefore hi lo = false) ->
        isDateDisabled p d = false).
Proof.
  assert (Spec : forall p d,
             isDateDisabled p d = true <->
             (isDateDisabledProp p d = true
              \/ disabled p = true
              \/ (exists lo, minValue p = Some lo /\ isBefore d lo = true)
              \/ (exists hi, maxValue p = Some hi /\ isBefore hi d = true))).
  { intros p d. unfold isDateDisabled.
    destruct (isDateDisabledProp p d); simpl; [tauto|].
    destruct (disabled p); simpl; [tauto|].
    destruct (minValue p) as [lo|], (maxValue p) as [hi|].
    - destruct (isBefore d lo) eqn:E1; [split; eauto 6|].
      destruct (isBefore hi d) eqn:E2; [split; eauto 7|].
      split; [discriminate|].
      intros [H|[H|[[x [Hx H]]|[x [Hx H]]]]]; try discriminate;
        injection Hx as <-; congruence.
    - destruct (isBefore d lo) eqn:E1; [split; eauto 6|].
      split; [discriminate|].
      intros [H|[H|[[x [Hx H]]|[x [Hx H]]]]]; try discriminate;
        injection Hx as <-; congruence.
    - destruct (isBefore hi d) eqn:E2; [split; eauto 7|].
      split; [discriminate|].
      intros [H|[H|[[x [Hx H]]|[x [Hx H]]]]]; try discriminate;
        injection Hx as <-; congruence.
    - split; [discriminate|].
      intros [H|[H|[[x [Hx H]]|[x [Hx H]]]]]; discriminate. }
  split; [exact Spec|]. split; [|split].
  - intros p d lo _ H. now apply isSameDay_not_before.
  - intros p d hi _ H. apply isSameDay_not_before. now rewrite isSameDay_sym.
  - intros p d Hm Hd Hon Hord.
    apply not_true_iff_false. intros H. apply Spec in H.
    assert (Day : forall a b c, isSameDay a b = true ->
                                isBefore a c = isBefore b c
                                /\ isBefore c a = isBefore c b).
    { intros a b c E. apply isSameDay_dayKey in E. unfold dayKey in E.
      injection E as Ey Em Ed. unfold isBefore. now rewrite Ey, Em, Ed. }
    destruct H as [H|[H|[[lo [Hlo H]]|[hi [Hhi H]]]]]; try congruence.
    + destruct Hon as [[lo' [Hlo' E]]|[hi [Hhi E]]].
      * assert (lo' = lo) by congruence. subst lo'.
        apply isSameDay_not_before in E. congruence.
      * specialize (Hord lo hi Hlo Hhi).
        destruct (Day d hi lo E) as [E1 _]. congruence.
    + destruct Hon as [[lo [Hlo E]]|[hi' [Hhi' E]]].
      * specialize (Hord lo hi Hlo Hhi).
        destruct (Day d lo hi E) as [_ E2]. congruence.
      * assert (hi' = hi) by congruence. subst hi'.
        rewrite isSameDay_sym in E. apply isSameDay_not_before in E. congruence.
Qed.

Lemma isDateDisabled_spec_witness :
  isDateDisabled januaryProps (CalendarDate 2024 1 5) = true
  /\ isDateDisabled januaryProps (CalendarDate 2024 1 21) = true
  /\ isBefore (CalendarDate 2024 1 10) (CalendarDate 2024 1 10) = false
  /\ isBefore (CalendarDate 2024 1 20) (CalendarDate 2024 1 20) = false
  /\ isDateDisabled januaryProps (mkDate 2024 1 10 (Some 3600000)) = false
  /\ isDateDisabled januaryProps (CalendarDate 2024 1 20) = false.
Proof.
  destruct isDateDisabled_spec as [Spec [Lo [Hi On]]].
  split; [|split; [|split; [|split; [|split]]]].
  - apply (proj2 (Spec januaryProps (CalendarDate 2024 1 5))).
    right. right. left. exists (CalendarDate 2024 1 10). split; reflexivity.
  - apply (proj2 (Spec januaryProps (CalendarDate 2024 1 21))).
    right. right. right. exists (CalendarDate 2024 1 20). split; reflexivity.
  - apply (Lo januaryProps); reflexivity.
  - apply (Hi januaryProps); reflexivity.
  - apply (On januaryProps); try reflexivity.
    + left. exists (CalendarDate 2024 1 10). split; reflexivity.
    + intros lo hi Hlo Hhi. injection Hlo as <-. injection Hhi as <-.
      reflexivity.
  - apply (On januaryProps); try reflexivity.
    + right. exists (CalendarDate 2024 1 20). split; reflexivity.
    + intros lo hi Hlo Hhi. injection Hlo as <-. injection Hhi as <-.
      reflexivity.
Defined.

(** ** The placeholder follows the value *)

Lemma nth_error_last (A : Type) (front : list A) (x : A) :
  nth_error (front ++ [x]) (List.length (front ++ [x]) - 1)%nat = Some x.
Proof.
  rewrite length_app. simpl.
  replace (List.length front + 1 - 1)%nat with (List.length front) by lia.
  rewrite nth_error_app2 by lia. now rewrite Nat.sub_diag.
Qed.

Lemma syncPlaceholder_value (r : Root) : value (syncPlaceholder r) = value r.
Proof.
  unfold syncPlaceholder. destruct (value r) as [|d|[|d ds]] eqn:E; simpl; auto.
  destruct (nth_error _ _); simpl; auto.
Qed.

(** What a click stores does not depend on where the placeholder is. *)
Lemma handleCellClick_value_independent
      (p : Props) (date : DateValue) (r1 r2 r1' r2' : Root) :
  value r1 = value r2 ->
  handleCellClick p date r1 = Returned tt r1' ->
  handleCellClick p date r2 = Returned tt r2' ->
  value r1' = value r2'.
Proof.
  intros E H1 H2. run. destruct (readonly p); [congruence|].
  destruct (isDateDisabledProp p date || isDateUnavailableProp p date);
    [congruence|].
  rewrite <- E in H2.
  destruct (type p), (value r1) as [|prev|ds] eqn:V; simpl in *;
    try congruence.
  - destruct (onDateSelect p); injection H1 as <-; injection H2 as <-;
      reflexivity.
  - destruct (negb (preventDeselect p) && isSameDay prev date); simpl in *;
      [|destruct (onDateSelect p)]; injection H1 as <-; injection H2 as <-;
      reflexivity.
  - injection H1 as <-; injection H2 as <-; reflexivity.
  - destruct (absent date ds);
      [injection H1 as <-; injection H2 as <-; reflexivity|].
    destruct (preventDeselect p);
      [injection H1 as <-; injection H2 as <-; reflexivity|].
    destruct (filter _ ds); simpl in *;
      injection H1 as <-; injection H2 as <-; reflexivity.
Qed.

(** C8. The callback that watches the value moves the placeholder to the
    last entry of a non-empty array and to a single date; for [undefined]
    and for the empty array it leaves the root as it is.  It never touches
    the value, and the value that a click stores does not depend on the
    placeholder. *)
Theorem syncPlaceholder_spec :
  (forall (r : Root) (front : list DateValue) (lastValue : DateValue),
      value r = Many (front ++ [lastValue]) ->
      syncPlaceholder r = setPlaceholder lastValue r)
  /\ (forall (r : Root) (d : DateValue),
        value r = One d -> syncPlaceholder r = setPlaceholder d r)
  /\ (forall (r : Root),
        value r = Undefined \/ value r = Many [] -> syncPlaceholder r = r)
  /\ (forall (r : Root), value (syncPlaceholder r) = value r)
  /\ (forall (p : Props) (date new : DateValue) (r r1 r2 : Root),
        handleCellClick p date r = Returned tt r1 ->
        handleCellClick p date (setPlaceholder new r) = Returned tt r2 ->
        value r1 = value r2).
Proof.
  split; [|split; [|split; [|split]]].
  - intros r front lastValue H. unfold syncPlaceholder. rewrite H.
    rewrite nth_error_last. destruct front; reflexivity.
  - intros r d H. unfold syncPlaceholder. now rewrite H.
  - intros r [H|H]; unfold syncPlaceholder; now rewrite H.
  - apply syncPlaceholder_value.
  - intros p date new r r1 r2 H1 H2.
    now apply (handleCellClick_value_independent p date r (setPlaceholder new r)).
Qed.

Lemma syncPlaceholder_spec_witness :
  let d1 := CalendarDate 2024 3 1 in
  let d2 := CalendarDate 2024 3 15 in
  let d3 := CalendarDate 2024 2 7 in
  syncPlaceholder (mkRoot (Many [d2; d1]) d3 [] []) = mkRoot (Many [d2; d1]) d1 [] []
  /\ syncPlaceholder (mkRoot (One d2) d3 [] []) = mkRoot (One d2) d2 [] []
  /\ syncPlaceholder (mkRoot Undefined d3 [] []) = mkRoot Undefined d3 [] []
  /\ syncPlaceholder (mkRoot (Many []) d3 [] []) = mkRoot (Many []) d3 [] []
  /\ value (mkRoot (One d1) d3 [] [Announce "Selected Date: 2024-3-1" polite None;
                                   DateSelected])
     = value (mkRoot (One d1) d2 [] [Announce "Selected Date: 2024-3-1" polite None;
                                     DateSelected]).
Proof.
  intros d1 d2 d3.
  destruct syncPlaceholder_spec as [Arr [Sgl [Emp [_ Ind]]]].
  split; [|split; [|split; [|split]]].
  - apply (Arr (mkRoot (Many [d2; d1]) d3 [] []) [d2] d1). reflexivity.
  - apply (Sgl (mkRoot (One d2) d3 [] []) d2). reflexivity.
  - apply (Emp (mkRoot Undefined d3 [] [])). left. reflexivity.
  - apply (Emp (mkRoot (Many []) d3 [] [])). right. reflexivity.
  - apply (Ind (sampleProps single) d1 d2 (mkRoot Undefined d3 [] [])).
    + vm_compute. reflexivity.
    + vm_compute. reflexivity.
Defined.

(** ** Single mode *)

Lemma heeded_intro (p : Props) (date : DateValue) (r : Root) :
  readonly p = false -> isDateDisabledProp p date = false ->
  isDateUnavailableProp p date = false -> isArray (value r) = false ->
  heeded p date r = true.
Proof. intros H1 H2 H3 H4. unfold heeded. now rewrite H1, H2, H3, H4. Qed.

Section SingleMode.

Variable p : Props.
Hypothesis single_mode : type p = single.

(** All of [handleCellClick] in single mode. *)
Lemma handleCellClick_single (date : DateValue) (r : Root) :
  handleCellClick p date r
  = Returned tt (if heeded p date r
                 then if deselects p date r then cleared date r
                      else committed p date r
                 else r).
Proof.
  unfold heeded, deselects, committed, cleared, handleCellClick.
  rewrite single_mode. unfold handleSingleUpdate, bind, ret, get, modify.
  destruct (readonly p); [reflexivity|].
  destruct (isDateDisabledProp p date || isDateUnavailableProp p date);
    [reflexivity|].
  destruct r as [v ph ms es]. simpl.
  destruct v as [|prev|ds]; simpl; [| |reflexivity].
  - unfold perform, setValue. simpl.
    destruct (onDateSelect p); simpl; [|reflexivity].
    now rewrite <- app_assoc.
  - destruct (negb (preventDeselect p) && isSameDay prev date); simpl;
      [reflexivity|].
    unfold perform, setValue. simpl.
    destruct (onDateSelect p); simpl; [|reflexivity].
    now rewrite <- app_assoc.
Qed.

(** C3. Single mode, deselecting allowed, the calendar not read-only, and
    [d] and [d'] two dates of one day that neither matcher rejects (as is
    the case when the root's [isDateDisabled] lets them through).  A click
    on [d] with nothing selected selects [d].  A click on [d'] after that,
    wherever the placeholder has gone in between, leaves nothing selected
    and the placeholder on the date clicked, a date of the day of [d].
    Nothing else clears the selection: a click that takes a root with a
    selected date to one without was a click on the day selected, and a
    click on another day selects the date clicked. *)
Theorem single_select_then_deselect :
  preventDeselect p = false -> readonly p = false ->
  (forall (d d' : DateValue) (r : Root),
      isDateDisabledProp p d = false -> isDateUnavailableProp p d = false ->
      isDateDisabledProp p d' = false -> isDateUnavailableProp p d' = false ->
      isSameDay d d' = true ->
      value r = Undefined ->
      exists r1,
        handleCellClick p d r = Returned tt r1
        /\ value r1 = One d
        /\ forall r1', value r1' = value r1 ->
             exists r2,
               handleCellClick p d' r1' = Returned tt r2
               /\ value r2 = Undefined
               /\ placeholder r2 = d'
               /\ isSameDay (placeholder r2) d = true)
  /\ (forall (prev date : DateValue) (r r' : Root),
        value r = One prev ->
        handleCellClick p date r = Returned tt r' ->
        value r' = Undefined ->
        isSameDay prev date = true /\ r' = cleared date r)
  /\ (forall (prev date : DateValue) (r : Root),
        isDateDisabledProp p date = false ->
        isDateUnavailableProp p date = false ->
        value r = One prev -> isSameDay prev date = false ->
        exists r', handleCellClick p date r = Returned tt r'
                   /\ value r' = One date).
Proof.
  intros PD RO. split; [|split].
  - intros d d' r Hd Hu Hd' Hu' Same V.
    rewrite (handleCellClick_single d r).
    rewrite heeded_intro by (auto; now rewrite V).
    unfold deselects. rewrite V. eexists. split; [reflexivity|].
    split; [reflexivity|]. simpl. intros r1' V1.
    rewrite (handleCellClick_single d' r1').
    rewrite heeded_intro by (auto; now rewrite V1).
    unfold deselects. rewrite V1, PD, Same. simpl.
    eexists. split; [reflexivity|]. simpl.
    split; [reflexivity|]. split; [reflexivity|].
    now rewrite isSameDay_sym.
  - intros prev date r r' V H Clear.
    rewrite (handleCellClick_single date r) in H. injection H as <-.
    destruct (heeded p date r); [|congruence].
    unfold deselects in *. rewrite V, PD in *. simpl in *.
    destruct (isSameDay prev date); [auto|discriminate].
  - intros prev date r Hd Hu V Diff.
    rewrite (handleCellClick_single date r).
    rewrite heeded_intro by (auto; now rewrite V).
    unfold deselects. rewrite V, Diff, andb_false_r.
    eexists. split; reflexivity.
Qed.

(** C4. In single mode a click that gets past the guards either commits
    the date clicked, announces ["Selected Date: "] followed by the
    formatted date, politely and without a duration, and then calls
    [onDateSelect] where one is installed; or it clears the selection and
    announces ["Selected date is now empty."], politely and for 5000 ms,
    and calls nothing.  A click that does not get past the guards commits
    nothing, announces nothing and calls nothing. *)
Theorem single_click_effects :
  forall (date : DateValue) (r : Root),
    exists r',
      handleCellClick p date r = Returned tt r'
      /\ if heeded p date r
         then (value r' = One date
               /\ effects r'
                  = effects r
                    ++ Announce ("Selected Date: " ++ selectedDate p date false)
                                polite None
                       :: (if onDateSelect p then [DateSelected] else []))
              \/ (value r' = Undefined
                  /\ effects r'
                     = effects r
                       ++ [Announce "Selected date is now empty." polite
                                    (Some 5000)])
         else r' = r.
Proof.
  intros date r. rewrite (handleCellClick_single date r).
  eexists. split; [reflexivity|].
  destruct (heeded p date r); [|reflexivity].
  destruct (deselects p date r); [right|left]; split; reflexivity.
Qed.

(** C10. Single mode with [preventDeselect] set, the calendar not
    read-only, and a click on a date that neither matcher rejects and that
    is the day selected.  The click stores the date clicked, announces
    ["Selected Date: "] with the formatted date and calls [onDateSelect]
    where one is installed.  The single update leaves the root as it is,
    the placeholder with it, and so does the click. *)
Theorem single_click_selected_day_prevent_deselect :
  forall (prev date : DateValue) (r : Root),
    preventDeselect p = true -> readonly p = false ->
    isDateDisabledProp p date = false -> isDateUnavailableProp p date = false ->
    value r = One prev -> isSameDay prev date = true ->
    handleSingleUpdate p (value r) date r = Returned (Some date) r
    /\ handleCellClick p date r
       = Returned tt
           (mkRoot (One date) (placeholder r) (months r)
                   (effects r
                    ++ Announce ("Selected Date: " ++ selectedDate p date false)
                                polite None
                       :: (if onDateSelect p then [DateSelected] else []))).
Proof.
  intros prev date r PD RO Hd Hu V Same. split.
  - unfold handleSingleUpdate. rewrite V, PD. reflexivity.
  - rewrite (handleCellClick_single date r).
    rewrite heeded_intro by (auto; now rewrite V).
    unfold deselects. rewrite V, PD. reflexivity.
Qed.

End SingleMode.

Lemma single_select_then_deselect_witness :
  let p := sampleProps single in
  let d := CalendarDate 2024 3 1 in
  let d' := mkDate 2024 3 1 (Some 43200000) in
  let r := emptyRoot p (CalendarDate 2024 2 7) in
  exists r1,
    handleCellClick p d r = Returned tt r1
    /\ value r1 = One d
    /\ forall r1', value r1' = value r1 ->
         exists r2,
           handleCellClick p d' r1' = Returned tt r2
           /\ value r2 = Undefined
           /\ placeholder r2 = d'
           /\ isSameDay (placeholder r2) d = true.
Proof.
  intros p d d' r.
  apply (proj1 (single_select_then_deselect p eq_refl eq_refl eq_refl) d d' r);
    reflexivity.
Defined.

(** Two clicks on one day, with the watcher after the first. *)
Example select_then_deselect_sample :
  let p := sampleProps single in
  let d := CalendarDate 2024 3 1 in
  let noon := mkDate 2024 3 1 (Some 43200000) in
  let r := emptyRoot p (CalendarDate 2024 2 7) in
  (handleCellClick p d ;; modify syncPlaceholder ;; handleCellClick p noon) r
  = Returned tt
      (mkRoot Undefined noon (createMonths p (CalendarDate 2024 2 7))
              [Announce "Selected Date: 2024-3-1" polite None; DateSelected;
               Announce "Selected date is now empty." polite (Some 5000)]).
Proof. vm_compute. reflexivity. Qed.

Lemma single_click_effects_witness :
  let p := sampleProps single in
  let d := CalendarDate 2024 3 1 in
  exists r',
    handleCellClick p d (emptyRoot p d) = Returned tt r'
    /\ if heeded p d (emptyRoot p d)
       then (value r' = One d
             /\ effects r'
                = effects (emptyRoot p d)
                  ++ Announce ("Selected Date: " ++ selectedDate p d false)
                              polite None
                     :: (if onDateSelect p then [DateSelected] else []))
            \/ (value r' = Undefined
                /\ effects r'
                   = effects (emptyRoot p d)
                     ++ [Announce "Selected date is now empty." polite
                                  (Some 5000)])
       else r' = emptyRoot p d.
Proof.
  intros p d. apply (single_click_effects p eq_refl d (emptyRoot p d)).
Defined.

Lemma single_click_selected_day_prevent_deselect_witness :
  let prev := CalendarDate 2024 3 1 in
  let date := mkDate 2024 3 1 (Some 43200000) in
  let r := mkRoot (One prev) (CalendarDate 2024 4 9) [] [] in
  handleSingleUpdate keepProps (value r) date r = Returned (Some date) r
  /\ handleCellClick keepProps date r
     = Returned tt
         (mkRoot (One date) (CalendarDate 2024 4 9) []
                 [Announce "Selected Date: 2024-3-1" polite None; DateSelected]).
Proof.
  intros prev date r.
  apply (single_click_selected_day_prevent_deselect
           keepProps eq_refl prev date r eq_refl eq_refl eq_refl eq_refl
           eq_refl eq_refl).
Defined.

(** ** Multiple mode *)

Lemma distinct_snoc (ds : list DateValue) (date : DateValue) :
  NoDup (map dayKey ds) -> absent date ds = true ->
  NoDup (map dayKey (ds ++ [date])).
Proof.
  intros N A. apply absent_spec in A. rewrite map_app. simpl.
  apply NoDup_app; [assumption|repeat constructor; intros []|].
  intros k Hk [<-|[]]. contradiction.
Qed.

Lemma distinct_filter (f : DateValue -> bool) (ds : list DateValue) :
  NoDup (map dayKey ds) -> NoDup (map dayKey (filter f ds)).
Proof.
  induction ds as [|d ds IH]; simpl; intros N; [constructor|].
  inversion N as [|k ks Hk N']; subst.
  destruct (f d); simpl; [|auto].
  constructor; [|auto].
  intros Hin. apply Hk. apply in_map_iff in Hin. destruct Hin as [x [Hx Hin]].
  apply in_map_iff. exists x. split; [assumption|].
  apply filter_In in Hin. tauto.
Qed.

Lemma handleCellClick_distinct (p : Props) (date : DateValue) (r r' : Root) :
  distinctDays (value r) -> handleCellClick p date r = Returned tt r' ->
  distinctDays (value r').
Proof.
  intros D H. run. destruct (readonly p); [now injection H as <-|].
  destruct (isDateDisabledProp p date || isDateUnavailableProp p date);
    [now injection H as <-|].
  destruct (type p), (value r) as [|prev|ds] eqn:V; simpl in *.
  - destruct (onDateSelect p); injection H as <-; exact I.
  - destruct (negb (preventDeselect p) && isSameDay prev date); simpl in *;
      [|destruct (onDateSelect p)]; injection H as <-; exact I.
  - injection H as <-. now rewrite V.
  - injection H as <-. simpl. repeat constructor. intros [].
  - injection H as <-. now rewrite V.
  - destruct (absent date ds) eqn:A.
    + injection H as <-. simpl. now apply distinct_snoc.
    + destruct (preventDeselect p); [injection H as <-; exact D|].
      pose proof (distinct_filter (fun d => negb (isSameDay d date)) ds D) as F.
      destruct (filter _ ds); simpl in *; injection H as <-; simpl; auto.
Qed.

Lemma step_distinct (p : Props) (r r' : Root) :
  distinctDays (value r) -> step p r r' -> distinctDays (value r').
Proof.
  intros D S. destruct S as [r date r' H|r].
  - now apply (handleCellClick_distinct p date r).
  - now rewrite syncPlaceholder_value.
Qed.

Lemma clicks_returns (p : Props) (dates : list DateValue) :
  forall r, exists r', clicks p dates r = Returned tt r' /\ reaches p r r'.
Proof.
  induction dates as [|date rest IH]; intros r; simpl.
  - exists r. split; [reflexivity|constructor].
  - unfold bind. destruct (handleCellClick_returns p date r) as [r1 H1].
    rewrite H1. destruct (IH r1) as [r' [H' R']]. exists r'.
    split; [assumption|].
    clear H'. induction R' as [r1|r1 r2 r3 R12 IH12 S23].
    + apply reaches_step with r; [constructor|]. now apply step_click with date.
    + apply reaches_step with r2; auto.
Qed.

Section MultipleMode.

Variable p : Props.
Hypothesis multiple_mode : type p = multiple.

(** C5. A run of the calendar that starts from a value without two
    entries of one day ([undefined] and the empty array among them) never
    comes to a value with two entries of one day; this holds for every run
    of clicks, which always returns, and with the watcher of the value
    running in between.  In multiple mode, when the click takes away all
    that is left of the array, the value becomes [undefined] and the
    placeholder the date clicked, whose day is the day of what was taken
    away; and no click leaves an empty array behind where there was none. *)
Theorem multiple_distinct_days :
  (forall (r r' : Root),
      distinctDays (value r) -> reaches p r r' -> distinctDays (value r'))
  /\ (forall (dates : list DateValue) (r : Root),
        distinctDays (value r) ->
        exists r', clicks p dates r = Returned tt r' /\ distinctDays (value r'))
  /\ (forall (date : DateValue) (ds : list DateValue) (r : Root),
        preventDeselect p = false -> readonly p = false ->
        isDateDisabledProp p date = false ->
        isDateUnavailableProp p date = false ->
        value r = Many ds -> ds <> [] ->
        (forall d, In d ds -> isSameDay d date = true) ->
        handleCellClick p date r
        = Returned tt (mkRoot Undefined date (months r) (effects r)))
  /\ (forall (date : DateValue) (r r' : Root),
        handleCellClick p date r = Returned tt r' ->
        value r' = Many [] -> value r = Many []).
Proof.
  split; [|split; [|split]].
  - intros r r' D R. induction R as [r|r r1 r2 R IH S]; [assumption|].
    apply (step_distinct p r1); auto.
  - intros dates r D. destruct (clicks_returns p dates r) as [r' [H R]].
    exists r'. split; [assumption|]. clear H.
    induction R as [r|r r1 r2 R IH S]; [assumption|].
    apply (step_distinct p r1); auto.
  - intros date ds r PD RO Hd Hu V NE All.
    unfold handleCellClick. rewrite RO, Hd, Hu, multiple_mode. simpl.
    unfold bind, get. rewrite V. unfold handleMultipleUpdate. rewrite PD.
    assert (A : absent date ds = false).
    { unfold absent. apply negb_false_iff. apply existsb_exists.
      destruct ds as [|d ds']; [contradiction|].
      exists d. split; [now left|]. apply All. now left. }
    rewrite A.
    assert (F : filter (fun d => negb (isSameDay d date)) ds = []).
    { clear -All. induction ds as [|d ds IH]; [reflexivity|]. simpl.
      rewrite (All d) by now left. simpl. apply IH.
      intros x Hx. apply All. now right. }
    rewrite F. reflexivity.
  - intros date r r' H E. unfold handleCellClick in H.
    rewrite multiple_mode in H.
    destruct (readonly p); [now injection H as <-|].
    destruct (isDateDisabledProp p date || isDateUnavailableProp p date);
      [now injection H as <-|].
    unfold bind, get, handleMultipleUpdate, modify, ret in H.
    destruct (value r) as [|prev|ds] eqn:V; simpl in *.
    + injection H as <-. discriminate.
    + injection H as <-. congruence.
    + destruct (absent date ds) eqn:A.
      * injection H as <-. simpl in E. injection E as E.
        destruct ds; discriminate.
      * destruct (preventDeselect p); [injection H as <-; exact E|].
        destruct (filter _ ds) eqn:F; simpl in *; injection H as <-;
          discriminate.
Qed.

(** C6. In multiple mode, with the calendar not read-only, a click on a
    date that neither matcher rejects and whose day is not selected puts
    the date behind the entries already stored, and changes nothing else.
    The order is the order of the clicks: 2024-03-01 then 2024-03-15 gives
    the two in this order, and 2024-03-15 then 2024-03-01 gives them the
    other way round. *)
Theorem multiple_click_appends :
  (forall (date : DateValue) (r : Root),
      readonly p = false ->
      isDateDisabledProp p date = false ->
      isDateUnavailableProp p date = false ->
      shapeMatches multiple (value r) = true ->
      isDateSelected r date = false ->
      handleCellClick p date r
      = Returned tt (setValue (Many (entries (value r) ++ [date])) r))
  /\ (forall (at_ : DateValue),
        readonly p = false ->
        isDateDisabledProp p (CalendarDate 2024 3 1) = false ->
        isDateUnavailableProp p (CalendarDate 2024 3 1) = false ->
        isDateDisabledProp p (CalendarDate 2024 3 15) = false ->
        isDateUnavailableProp p (CalendarDate 2024 3 15) = false ->
        clicks p [CalendarDate 2024 3 1; CalendarDate 2024 3 15]
               (emptyRoot p at_)
        = Returned tt
            (setValue (Many [CalendarDate 2024 3 1; CalendarDate 2024 3 15])
                      (emptyRoot p at_))
        /\ clicks p [CalendarDate 2024 3 15; CalendarDate 2024 3 1]
                  (emptyRoot p at_)
           = Returned tt
               (setValue (Many [CalendarDate 2024 3 15; CalendarDate 2024 3 1])
                         (emptyRoot p at_))).
Proof.
  assert (App : forall date r,
             readonly p = false ->
             isDateDisabledProp p date = false ->
             isDateUnavailableProp p date = false ->
             shapeMatches multiple (value r) = true ->
             isDateSelected r date = false ->
             handleCellClick p date r
             = Returned tt (setValue (Many (entries (value r) ++ [date])) r)).
  { intros date r RO Hd Hu Sh Sel.
    unfold handleCellClick. rewrite RO, Hd, Hu, multiple_mode. simpl.
    unfold bind, get, handleMultipleUpdate, modify, ret.
    unfold isDateSelected in Sel.
    destruct (value r) as [|prev|ds]; simpl in *; [reflexivity|discriminate|].
    unfold absent. now rewrite Sel. }
  split; [exact App|].
  intros at_ RO Hd1 Hu1 Hd2 Hu2. split; simpl; unfold bind.
  - rewrite App by auto. simpl. rewrite App by auto. reflexivity.
  - rewrite App by auto. simpl. rewrite App by auto. reflexivity.
Qed.

End MultipleMode.

Lemma multiple_distinct_days_witness :
  let p := sampleProps multiple in
  let d1 := CalendarDate 2024 3 1 in
  let d2 := CalendarDate 2024 3 15 in
  let noon := mkDate 2024 3 1 (Some 43200000) in
  let r0 := emptyRoot p d2 in
  let r1 := mkRoot (Many [d1]) d2 (createMonths p d2) [] in
  let r2 := mkRoot (Many []) d2 [] [] in
  distinctDays (value (syncPlaceholder r1))
  /\ (exists r', clicks p [d1; d2; noon; d2] r0 = Returned tt r'
                 /\ distinctDays (value r'))
  /\ handleCellClick p noon r1
     = Returned tt (mkRoot Undefined noon (createMonths p d2) [])
  /\ value r2 = Many [].
Proof.
  intros p d1 d2 noon r0 r1 r2.
  destruct (multiple_distinct_days p eq_refl) as [Inv [Run [Last _]]].
  destruct (multiple_distinct_days readonlyProps eq_refl) as [_ [_ [_ NoEmpty]]].
  split; [|split; [|split]].
  - apply (Inv r0 (syncPlaceholder r1) I).
    apply reaches_step with r1; [|apply step_watch].
    apply reaches_step with r0; [apply reaches_here|].
    apply step_click with d1. reflexivity.
  - apply (Run [d1; d2; noon; d2] r0 I).
  - apply (Last noon [d1] r1); try reflexivity.
    + discriminate.
    + intros d [<-|[]]. reflexivity.
  - apply (NoEmpty d1 r2 r2); reflexivity.
Defined.

(** Two days selected, the first taken away by a click on a date of its
    day, the second by a click on it. *)
Example clicks_toggle :
  let p := sampleProps multiple in
  let d1 := CalendarDate 2024 3 1 in
  let d2 := CalendarDate 2024 3 15 in
  let noon := mkDate 2024 3 1 (Some 43200000) in
  clicks p [d1; d2; noon] (emptyRoot p d2)
  = Returned tt (mkRoot (Many [d2]) d2 (createMonths p d2) [])
  /\ clicks p [d1; d2; noon; d2] (emptyRoot p d2)
     = Returned tt (mkRoot Undefined d2 (createMonths p d2) []).
Proof. split; reflexivity. Qed.

Lemma multiple_click_appends_witness :
  let p := sampleProps multiple in
  let d1 := CalendarDate 2024 3 1 in
  let d2 := CalendarDate 2024 3 15 in
  let r := mkRoot (Many [d2]) d2 [] [] in
  handleCellClick p d1 r = Returned tt (mkRoot (Many [d2; d1]) d2 [] [])
  /\ clicks p [d1; d2] (emptyRoot p d1)
     = Returned tt (setValue (Many [d1; d2]) (emptyRoot p d1))
  /\ clicks p [d2; d1] (emptyRoot p d1)
     = Returned tt (setValue (Many [d2; d1]) (emptyRoot p d1)).
Proof.
  intros p d1 d2 r. split.
  - apply (proj1 (multiple_click_appends p eq_refl) d1 r); reflexivity.
  - apply (proj2 (multiple_click_appends p eq_refl) d1); reflexivity.
Defined.

(** ** Paging *)

Lemma monthIndex_monthStart (i : Z) (time : option Z) :
  monthIndex (monthStart i time) = i.
Proof.
  unfold monthIndex, monthStart. simpl.
  pose proof (Z.div_mod i 12). lia.
Qed.

Lemma monthIndex_addMonths (d : DateValue) (n : Z) :
  monthIndex (addMonths d n) = monthIndex d + n.
Proof.
  unfold addMonths. set (i := monthIndex d + n).
  unfold monthIndex at 1. simpl. pose proof (Z.div_mod i 12). lia.
Qed.

Lemma daysInMonth_lower (y m : Z) : 28 <= daysInMonth y m.
Proof.
  unfold daysInMonth.
  destruct (m =? 2); [destruct (isLeapYear y); lia|].
  destruct ((m =? 4) || (m =? 6) || (m =? 9) || (m =? 11)); lia.
Qed.

Lemma startOfMonth_addMonths (d : DateValue) (n : Z) :
  startOfMonth (addMonths d n) = monthStart (monthIndex d + n) (timeOfDay d).
Proof. reflexivity. Qed.

Lemma addMonths_monthStart (i k : Z) (time : option Z) :
  addMonths (monthStart i time) k = monthStart (i + k) time.
Proof.
  unfold addMonths. rewrite monthIndex_monthStart. unfold monthStart. simpl.
  f_equal. pose proof (daysInMonth_lower ((i + k) / 12) ((i + k) mod 12 + 1)).
  lia.
Qed.

Section Pages.

Variable p : Props.

Lemma visibleMonths_createMonths (d : DateValue) :
  map value_of (createMonths p d)
  = map (fun i => monthStart (monthIndex d + Z.of_nat i) (timeOfDay d))
        (seq 0 (numberOfMonths p)).
Proof.
  unfold createMonths. rewrite map_map. apply map_ext. intros i. simpl.
  apply startOfMonth_addMonths.
Qed.

Lemma createMonths_same_month (a b : DateValue) :
  monthIndex a = monthIndex b -> timeOfDay a = timeOfDay b ->
  createMonths p a = createMonths p b.
Proof.
  intros M T. unfold createMonths. apply map_ext. intros i.
  now rewrite !startOfMonth_addMonths, M, T.
Qed.

Lemma visibleMonths_jump (d : DateValue) (k : Z) :
  map value_of (createMonths p (addMonths d k))
  = map (fun m => addMonths m k) (map value_of (createMonths p d)).
Proof.
  rewrite !visibleMonths_createMonths, map_map. apply map_ext. intros i.
  rewrite addMonths_monthStart, monthIndex_addMonths. simpl.
  f_equal. lia.
Qed.

Lemma monthStart_monthValue (m : DateValue) :
  isMonthValue m = true -> monthStart (monthIndex m) (timeOfDay m) = m.
Proof.
  unfold isMonthValue. rewrite !andb_true_iff, Z.eqb_eq, !Z.leb_le.
  intros [[D Lo] Hi]. destruct m as [y mo d t]. simpl in *. subst d.
  unfold monthStart, monthIndex. simpl.
  assert (Q : (y * 12 + (mo - 1)) / 12 = y).
  { symmetry. apply (Z.div_unique _ 12 y (mo - 1)); lia. }
  assert (R : (y * 12 + (mo - 1)) mod 12 = mo - 1).
  { symmetry. apply (Z.mod_unique _ 12 y (mo - 1)); lia. }
  rewrite Q, R. f_equal. lia.
Qed.

Lemma hd_createMonths (d : DateValue) :
  (0 < numberOfMonths p)%nat ->
  exists rest,
    createMonths p d
    = mkMonth (monthStart (monthIndex d) (timeOfDay d)) :: rest.
Proof.
  intros Pos. unfold createMonths.
  destruct (numberOfMonths p) as [|n]; [lia|]. simpl.
  eexists. f_equal. rewrite startOfMonth_addMonths. now rewrite Z.add_0_r.
Qed.

Lemma nextPage_months (r : Root) (m : Month) (rest : list Month) :
  months r = m :: rest ->
  nextPage p r
  = Returned tt
      (setMonths (createMonths p (addMonths (value_of m) (pageJump p)))
                 (setPlaceholder (addMonths (value_of m) (pageJump p)) r))
  /\ prevPage p r
     = Returned tt
         (setMonths (createMonths p (subtractMonths (value_of m) (pageJump p)))
                    (setPlaceholder (subtractMonths (value_of m) (pageJump p))
                                    r)).
Proof.
  intros M. unfold nextPage, prevPage, bind, get. rewrite M. split; reflexivity.
Qed.

Lemma page_no_months (r : Root) :
  months r = [] ->
  nextPage p r = Returned tt r /\ prevPage p r = Returned tt r.
Proof.
  intros M. unfold nextPage, prevPage, bind, get. rewrite M. split; reflexivity.
Qed.

(** What a page from the month [m] leaves for the first visible month,
    and for all of them when [m] heads the months built from [d]. *)
Lemma page_from (m : DateValue) (k : Z) (r : Root) :
  (0 < numberOfMonths p)%nat ->
  hd_error (visibleMonths (setMonths (createMonths p (addMonths m k))
                                     (setPlaceholder (addMonths m k) r)))
  = Some (monthStart (monthIndex m + k) (timeOfDay m)).
Proof.
  intros Pos. unfold visibleMonths. simpl.
  destruct (hd_createMonths (addMonths m k) Pos) as [rest E]. rewrite E.
  simpl. now rewrite monthIndex_addMonths.
Qed.

Lemma page_window (d : DateValue) (k : Z) (r : Root) :
  (0 < numberOfMonths p)%nat ->
  visibleMonths
    (setMonths
       (createMonths p (addMonths (monthStart (monthIndex d) (timeOfDay d)) k))
       (setPlaceholder
          (addMonths (monthStart (monthIndex d) (timeOfDay d)) k) r))
  = map (fun m => addMonths m k) (map value_of (createMonths p d)).
Proof.
  intros Pos. unfold visibleMonths. simpl. rewrite <- visibleMonths_jump.
  f_equal. apply createMonths_same_month.
  - now rewrite !monthIndex_addMonths, monthIndex_monthStart.
  - reflexivity.
Qed.

(** C9. For every root of a calendar of at least one month, whatever its
    placeholder and its months.  With [pagedNavigation] set, [nextPage]
    takes the first visible month on by [numberOfMonths] months and
    [prevPage] takes it back by as many, so that [prevPage] after
    [nextPage] brings the first visible month back to its month, and to
    its value when this is the first day of a month; when the months are
    those that the builder makes from some date, all the visible months
    move by [numberOfMonths] months and come back.  Without
    [pagedNavigation], [nextPage] takes the first
    visible month on by one month and [prevPage] back by one month, and
    with it all the visible months when they are the builder's. *)
Theorem paging_round_trip :
  forall (r : Root),
    (0 < numberOfMonths p)%nat ->
    exists r1 r2 r0,
      nextPage p r = Returned tt r1
      /\ prevPage p r1 = Returned tt r2
      /\ prevPage p r = Returned tt r0
      /\ (pagedNavigation p = true ->
          hd_error (visibleMonths r1)
          = option_map
              (fun m => monthStart (monthIndex m + Z.of_nat (numberOfMonths p))
                                   (timeOfDay m))
              (hd_error (visibleMonths r))
          /\ hd_error (visibleMonths r0)
             = option_map
                 (fun m => monthStart
                             (monthIndex m - Z.of_nat (numberOfMonths p))
                             (timeOfDay m))
                 (hd_error (visibleMonths r))
          /\ option_map monthIndex (hd_error (visibleMonths r2))
             = option_map monthIndex (hd_error (visibleMonths r))
          /\ (forall m, hd_error (visibleMonths r) = Some m ->
                        isMonthValue m = true ->
                        hd_error (visibleMonths r2) = Some m)
          /\ (forall d, months r = createMonths p d ->
                        visibleMonths r2 = visibleMonths r
                        /\ visibleMonths r1
                           = map (fun m => addMonths m
                                             (Z.of_nat (numberOfMonths p)))
                                 (visibleMonths r)
                        /\ visibleMonths r0
                           = map (fun m => subtractMonths m
                                             (Z.of_nat (numberOfMonths p)))
                                 (visibleMonths r)))
      /\ (pagedNavigation p = false ->
          hd_error (visibleMonths r1)
          = option_map (fun m => monthStart (monthIndex m + 1) (timeOfDay m))
                       (hd_error (visibleMonths r))
          /\ hd_error (visibleMonths r0)
             = option_map (fun m => monthStart (monthIndex m - 1) (timeOfDay m))
                          (hd_error (visibleMonths r))
          /\ (forall d, months r = createMonths p d ->
                        visibleMonths r1
                        = map (fun m => addMonths m 1) (visibleMonths r)
                        /\ visibleMonths r0
                           = map (fun m => subtractMonths m 1)
                                 (visibleMonths r))).
Proof.
  intros r Pos. destruct (months r) as [|m rest] eqn:M.
  - destruct (page_no_months r M) as [N P]. exists r, r, r.
    split; [exact N|]. split; [exact P|]. split; [exact P|].
    unfold visibleMonths. rewrite M. simpl. split; intros _.
    + split; [reflexivity|]. split; [reflexivity|]. split; [reflexivity|].
      split; [intros x Hx; discriminate Hx|]. intros d E.
      destruct (hd_createMonths d Pos) as [x E']. congruence.
    + split; [reflexivity|]. split; [reflexivity|]. intros d E.
      destruct (hd_createMonths d Pos) as [x E']. congruence.
  - destruct (nextPage_months r m rest M) as [N P].
    set (k := pageJump p) in *. set (m0 := value_of m) in *.
    set (r1 := setMonths (createMonths p (addMonths m0 k))
                         (setPlaceholder (addMonths m0 k) r)) in *.
    set (r0 := setMonths (createMonths p (subtractMonths m0 k))
                         (setPlaceholder (subtractMonths m0 k) r)) in *.
    destruct (hd_createMonths (addMonths m0 k) Pos) as [rest1 E1].
    destruct (nextPage_months r1 _ rest1 E1) as [_ P1]. simpl value_of in P1.
    fold k in P1.
    set (s1 := monthStart (monthIndex (addMonths m0 k))
                          (timeOfDay (addMonths m0 k))) in *.
    set (r2 := setMonths (createMonths p (subtractMonths s1 k))
                         (setPlaceholder (subtractMonths s1 k) r1)) in *.
    exists r1, r2, r0.
    split; [exact N|]. split; [exact P1|]. split; [exact P|].
    assert (V : hd_error (visibleMonths r) = Some m0)
      by (unfold visibleMonths; now rewrite M).
    assert (H1 : hd_error (visibleMonths r1)
                 = Some (monthStart (monthIndex m0 + k) (timeOfDay m0)))
      by (apply page_from; assumption).
    assert (H0 : hd_error (visibleMonths r0)
                 = Some (monthStart (monthIndex m0 - k) (timeOfDay m0)))
      by (apply (page_from m0 (- k)); assumption).
    assert (H2 : hd_error (visibleMonths r2)
                 = Some (monthStart (monthIndex m0) (timeOfDay m0))).
    { unfold r2, subtractMonths. rewrite page_from by assumption.
      unfold s1. rewrite monthIndex_monthStart, monthIndex_addMonths.
      simpl timeOfDay. f_equal. f_equal. lia. }
    assert (W : forall d, m :: rest = createMonths p d ->
                          m0 = monthStart (monthIndex d) (timeOfDay d)).
    { intros d E. destruct (hd_createMonths d Pos) as [x E']. unfold m0.
      rewrite E' in E. now injection E as ->. }
    assert (Back : forall d, m :: rest = createMonths p d ->
                             visibleMonths r2 = visibleMonths r).
    { intros d E. unfold r2, visibleMonths. simpl. rewrite M, E. f_equal.
      apply createMonths_same_month.
      - unfold subtractMonths, s1.
        rewrite monthIndex_addMonths, monthIndex_monthStart,
          monthIndex_addMonths, (W d E), monthIndex_monthStart. lia.
      - unfold subtractMonths, s1. simpl. now rewrite (W d E). }
    assert (Shift : forall d j, m :: rest = createMonths p d ->
                    visibleMonths
                      (setMonths (createMonths p (addMonths m0 j))
                                 (setPlaceholder (addMonths m0 j) r))
                    = map (fun x => addMonths x j) (visibleMonths r)).
    { intros d j E. rewrite (W d E). rewrite page_window by assumption.
      unfold visibleMonths. now rewrite M, E. }
    rewrite V, H1, H0, H2. simpl option_map. split; intros Paged.
    + assert (K : k = Z.of_nat (numberOfMonths p))
        by (unfold k, pageJump; now rewrite Paged).
      rewrite K. split; [reflexivity|]. split; [reflexivity|].
      split; [now rewrite monthIndex_monthStart|]. split.
      * intros x Hx Mx. injection Hx as <-.
        now rewrite monthStart_monthValue.
      * intros d E. split; [exact (Back d E)|]. split.
        -- unfold r1. rewrite K.
           exact (Shift d (Z.of_nat (numberOfMonths p)) E).
        -- unfold r0. rewrite K.
           exact (Shift d (- Z.of_nat (numberOfMonths p)) E).
    + assert (K : k = 1) by (unfold k, pageJump; now rewrite Paged).
      split; [now rewrite K|]. split; [now rewrite K|]. intros d E. split.
      * unfold r1. rewrite K. exact (Shift d 1 E).
      * unfold r0. rewrite K. exact (Shift d (-1) E).
Qed.

End Pages.

Lemma paging_round_trip_witness :
  let p := sampleProps single in
  let r := mkRoot (One (CalendarDate 2024 3 15)) (CalendarDate 2024 3 15)
                  (createMonths p (CalendarDate 2024 2 9)) [] in
  exists r1 r2 r0,
    nextPage p r = Returned tt r1
    /\ prevPage p r1 = Returned tt r2
    /\ prevPage p r = Returned tt r0
    /\ (pagedNavigation p = true ->
        hd_error (visibleMonths r1)
        = option_map
            (fun m => monthStart (monthIndex m + Z.of_nat (numberOfMonths p))
                                 (timeOfDay m))
            (hd_error (visibleMonths r))
        /\ hd_error (visibleMonths r0)
           = option_map
               (fun m => monthStart
                           (monthIndex m - Z.of_nat (numberOfMonths p))
                           (timeOfDay m))
               (hd_error (visibleMonths r))
        /\ option_map monthIndex (hd_error (visibleMonths r2))
           = option_map monthIndex (hd_error (visibleMonths r))
        /\ (forall m, hd_error (visibleMonths r) = Some m ->
                      isMonthValue m = true ->
                      hd_error (visibleMonths r2) = Some m)
        /\ (forall d, months r = createMonths p d ->
                      visibleMonths r2 = visibleMonths r
                      /\ visibleMonths r1
                         = map (fun m => addMonths m
                                           (Z.of_nat (numberOfMonths p)))
                               (visibleMonths r)
                      /\ visibleMonths r0
                         = map (fun m => subtractMonths m
                                           (Z.of_nat (numberOfMonths p)))
                               (visibleMonths r)))
    /\ (pagedNavigation p = false ->
        hd_error (visibleMonths r1)
        = option_map (fun m => monthStart (monthIndex m + 1) (timeOfDay m))
                     (hd_error (visibleMonths r))
        /\ hd_error (visibleMonths r0)
           = option_map (fun m => monthStart (monthIndex m - 1) (timeOfDay m))
                        (hd_error (visibleMonths r))
        /\ (forall d, months r = createMonths p d ->
                      visibleMonths r1
                      = map (fun m => addMonths m 1) (visibleMonths r)
                      /\ visibleMonths r0
                         = map (fun m => subtractMonths m 1)
                               (visibleMonths r))).
Proof.
  intros p r. apply (paging_round_trip p r). simpl. lia.
Defined.

(** Pages of two months from a root that shows February and March 2024
    with the placeholder on 2024-03-15: on to April and May, and back to
    February and March with the placeholder on the first of February. *)
Example paging_sample :
  let p := sampleProps single in
  let r := mkRoot (One (CalendarDate 2024 3 15)) (CalendarDate 2024 3 15)
                  (createMonths p (CalendarDate 2024 2 9)) [] in
  visibleMonths r = [CalendarDate 2024 2 1; CalendarDate 2024 3 1]
  /\ nextPage p r
     = Returned tt
         (mkRoot (One (CalendarDate 2024 3 15)) (CalendarDate 2024 4 1)
                 [mkMonth (CalendarDate 2024 4 1); mkMonth (CalendarDate 2024 5 1)]
                 [])
  /\ (nextPage p ;; prevPage p) r
     = Returned tt
         (mkRoot (One (CalendarDate 2024 3 15)) (CalendarDate 2024 2 1)
                 [mkMonth (CalendarDate 2024 2 1); mkMonth (CalendarDate 2024 3 1)]
                 []).
Proof. repeat split. Qed.

(** ** The ways of a click *)

Lemma setValue_same (r : Root) : setValue (value r) r = r.
Proof. now destruct r. Qed.

Lemma heeded_accepted (p : Props) (date : DateValue) (r : Root) :
  type p = single -> heeded p date r = accepted p date r.
Proof.
  intros T. unfold heeded, accepted. rewrite T. now destruct (value r).
Qed.

(** All of [handleCellClick] in multiple mode. *)
Lemma handleCellClick_multiple (p : Props) (date : DateValue) (r : Root) :
  type p = multiple ->
  handleCellClick p date r
  = Returned tt
      (if accepted p date r
       then if isDateSelected r date
            then if preventDeselect p then r
                 else match otherDays date (entries (value r)) with
                      | [] => mkRoot Undefined date (months r) (effects r)
                      | next => setValue (Many next) r
                      end
            else setValue (Many (entries (value r) ++ [date])) r
       else r).
Proof.
  intros T. unfold accepted, handleCellClick. rewrite T.
  destruct (readonly p); [reflexivity|].
  destruct (isDateDisabledProp p date || isDateUnavailableProp p date);
    [reflexivity|].
  unfold bind, get, isDateSelected, handleMultipleUpdate, absent, otherDays.
  destruct r as [v ph ms es]. simpl.
  destruct v as [|one|ds]; simpl; try reflexivity.
  destruct (existsb (fun d => isSameDay d date) ds); simpl; [|reflexivity].
  destruct (preventDeselect p); [reflexivity|].
  destruct (filter _ ds); reflexivity.
Qed.

Lemma handleCellClick_clicked (p : Props) (date : DateValue) (r r' : Root) :
  handleCellClick p date r = Returned tt r' <-> clicked p date r r'.
Proof.
  split.
  - intros H. destruct (type p) eqn:T.
    + rewrite (handleCellClick_single p T date r) in H.
      rewrite (heeded_accepted p date r T) in H. injection H as <-.
      destruct (accepted p date r) eqn:A; [|now apply clicked_ignored].
      destruct (deselects p date r) eqn:D;
        [now apply clicked_clear|now apply clicked_commit].
    + rewrite (handleCellClick_multiple p date r T) in H. injection H as <-.
      destruct (accepted p date r) eqn:A; [|now apply clicked_ignored].
      destruct (isDateSelected r date) eqn:S; [|now apply clicked_append].
      destruct (preventDeselect p) eqn:PD; [now apply clicked_kept|].
      destruct (otherDays date (entries (value r))) as [|d next] eqn:O.
      * now apply clicked_emptied.
      * rewrite <- O. apply clicked_removed; auto. now rewrite O.
  - intros C. destruct (type p) eqn:T.
    + rewrite (handleCellClick_single p T date r).
      rewrite (heeded_accepted p date r T).
      destruct C as [A|A _ D|A _ D|A T'|A T'|A T'|A T']; try congruence;
        now rewrite A, ?D.
    + rewrite (handleCellClick_multiple p date r T).
      destruct C as [A|A T'|A T'|A _ S|A _ S PD|A _ S PD O|A _ S PD O];
        try congruence; rewrite A, ?S, ?PD, ?O; try reflexivity.
      destruct (otherDays date (entries (value r))); [contradiction|reflexivity].
Qed.

(** ** The day selected *)

Lemma isSameDay_trans (a b c : DateValue) :
  isSameDay a b = true -> isSameDay b c = true -> isSameDay a c = true.
Proof. rewrite !isSameDay_dayKey. congruence. Qed.

Lemma isSameDay_left (a b c : DateValue) :
  isSameDay a b = true -> isSameDay a c = isSameDay b c.
Proof.
  intros E. destruct (isSameDay b c) eqn:B.
  - now apply isSameDay_trans with b.
  - apply not_true_iff_false. intros A. rewrite isSameDay_sym in E.
    rewrite (isSameDay_trans b a c E A) in B. discriminate.
Qed.

Lemma isDateSelected_entries (r : Root) (d : DateValue) :
  isDateSelected r d = existsb (fun e => isSameDay e d) (entries (value r)).
Proof.
  unfold isDateSelected. destruct (value r); simpl; auto using orb_false_r.
Qed.

Lemma otherDays_not_selected (date : DateValue) (ds : list DateValue) :
  existsb (fun e => isSameDay e date) (otherDays date ds) = false.
Proof.
  induction ds as [|e ds IH]; [reflexivity|]. unfold otherDays in *. simpl.
  destruct (isSameDay e date) eqn:E; simpl; [assumption|]. now rewrite E.
Qed.

Lemma otherDays_selected (date d : DateValue) (ds : list DateValue) :
  isSameDay d date = false ->
  existsb (fun e => isSameDay e d) (otherDays date ds)
  = existsb (fun e => isSameDay e d) ds.
Proof.
  intros N. induction ds as [|e ds IH]; [reflexivity|].
  unfold otherDays in *. simpl.
  destruct (isSameDay e date) eqn:E; simpl; [|now rewrite IH].
  rewrite IH, (isSameDay_left e date d E), (isSameDay_sym date d), N.
  reflexivity.
Qed.

Lemma otherDays_all (date : DateValue) (ds : list DateValue) :
  existsb (fun e => isSameDay e date) ds = false -> otherDays date ds = ds.
Proof.
  induction ds as [|e ds IH]; [reflexivity|]. unfold otherDays in *. simpl.
  intros H. apply orb_false_iff in H. destruct H as [E H].
  rewrite E. simpl. now rewrite IH.
Qed.

Lemma otherDays_app (date : DateValue) (xs ys : list DateValue) :
  otherDays date (xs ++ ys) = otherDays date xs ++ otherDays date ys.
Proof. apply filter_app. Qed.

Lemma accepted_shape (p : Props) (date : DateValue) (r : Root) :
  accepted p date r = true -> shapeMatches (type p) (value r) = true.
Proof. unfold accepted. rewrite !andb_true_iff. tauto. Qed.

(** X1. For a click that gets past the guards, with deselecting allowed,
    the day clicked is selected afterwards exactly when it was not selected
    before. *)
Theorem click_toggles_day :
  forall (p : Props) (date : DateValue) (r r' : Root),
    accepted p date r = true -> preventDeselect p = false ->
    handleCellClick p date r = Returned tt r' ->
    isDateSelected r' date = negb (isDateSelected r date).
Proof.
  intros p date r r' A PD H. apply handleCellClick_clicked in H.
  pose proof (accepted_shape p date r A) as Sh.
  destruct H as [A'|_ T D|_ T D|_ T S|_ T S PD'|_ T S PD' O|_ T S PD' O];
    try congruence.
  - unfold deselects in D. unfold isDateSelected at 2. rewrite T in Sh.
    unfold isDateSelected, committed. simpl. rewrite isSameDay_refl.
    destruct (value r); simpl in *; try discriminate; [reflexivity|].
    rewrite PD in D. simpl in D. now rewrite D.
  - unfold deselects in D. unfold isDateSelected, cleared. simpl.
    destruct (value r); try discriminate.
    rewrite PD in D. simpl in D. now rewrite D.
  - rewrite S. rewrite isDateSelected_entries. simpl.
    rewrite existsb_app. simpl. now rewrite isSameDay_refl, orb_true_r.
  - rewrite S. rewrite isDateSelected_entries. simpl.
    apply otherDays_not_selected.
  - now rewrite S.
Qed.

Lemma click_toggles_day_witness :
  let p := sampleProps multiple in
  let d1 := CalendarDate 2024 3 1 in
  let noon := mkDate 2024 3 1 (Some 43200000) in
  let r := mkRoot (Many [CalendarDate 2024 3 15; d1]) d1 [] [] in
  let r' := mkRoot (Many [CalendarDate 2024 3 15]) d1 [] [] in
  isDateSelected r' noon = negb (isDateSelected r noon).
Proof.
  intros p d1 noon r r'.
  apply (click_toggles_day p noon r r'); reflexivity.
Defined.

(** X2. In multiple mode a click leaves every other day as it was:
    selected if it was selected, and not selected if it was not. *)
Theorem multiple_click_other_days :
  forall (p : Props) (date d : DateValue) (r r' : Root),
    type p = multiple ->
    handleCellClick p date r = Returned tt r' ->
    isSameDay d date = false ->
    isDateSelected r' d = isDateSelected r d.
Proof.
  intros p date d r r' T H N. apply handleCellClick_clicked in H.
  destruct H as [A|A T' D|A T' D|A _ S|A _ S PD|A _ S PD O|A _ S PD O];
    try congruence.
  - rewrite !isDateSelected_entries. simpl. rewrite existsb_app. simpl.
    now rewrite (isSameDay_sym date d), N, !orb_false_r.
  - rewrite !isDateSelected_entries. simpl. now apply otherDays_selected.
  - rewrite (isDateSelected_entries r d), <- (otherDays_selected date d _ N), O.
    reflexivity.
Qed.

Lemma multiple_click_other_days_witness :
  let p := sampleProps multiple in
  let d1 := CalendarDate 2024 3 1 in
  let d2 := CalendarDate 2024 3 15 in
  let r := mkRoot (Many [d2; d1]) d1 [] [] in
  let r' := mkRoot (Many [d2]) d1 [] [] in
  isDateSelected r' d2 = isDateSelected r d2.
Proof.
  intros p d1 d2 r r'.
  apply (multiple_click_other_days p d1 d2 r r'); reflexivity.
Defined.

(** X3. With [preventDeselect] set a click never empties a selection: the
    value is [undefined] afterwards only if it was before and the click
    was ignored.  In multiple mode every day that was selected stays
    selected. *)
Theorem prevent_deselect_keeps :
  forall (p : Props) (date : DateValue) (r r' : Root),
    preventDeselect p = true ->
    handleCellClick p date r = Returned tt r' ->
    (value r' = Undefined -> r' = r)
    /\ (type p = multiple ->
        forall d, isDateSelected r d = true -> isDateSelected r' d = true).
Proof.
  intros p date r r' PD H. apply handleCellClick_clicked in H.
  destruct H as [A|A T D|A T D|A T S|A T S PD'|A T S PD' O|A T S PD' O];
    try congruence.
  - split; auto.
  - split; [discriminate|congruence].
  - unfold deselects in D. rewrite PD in D.
    destruct (value r); discriminate.
  - split; [discriminate|]. intros _ d Sd.
    rewrite isDateSelected_entries in *. simpl. rewrite existsb_app.
    now rewrite Sd.
  - split; auto.
Qed.

Lemma prevent_deselect_keeps_witness :
  let p := pickyProps multiple true in
  let d2 := CalendarDate 2024 3 15 in
  let d3 := CalendarDate 2024 3 20 in
  let r := mkRoot (Many [d2]) d2 [] [] in
  let r' := mkRoot (Many [d2; d3]) d2 [] [] in
  (value r' = Undefined -> r' = r)
  /\ (type p = multiple ->
      forall d, isDateSelected r d = true -> isDateSelected r' d = true).
Proof.
  intros p d2 d3 r r'.
  apply (prevent_deselect_keeps p d3 r r'); reflexivity.
Defined.

(** X4. In multiple mode, with deselecting allowed, two clicks on a date
    whose day is not selected, both past the guards, bring back the
    entries that were stored: the root itself when there were some, and
    otherwise [undefined] for the value with the placeholder on the date
    clicked. *)
Theorem multiple_click_twice :
  forall (p : Props) (date : DateValue) (r : Root),
    type p = multiple -> preventDeselect p = false ->
    accepted p date r = true -> isDateSelected r date = false ->
    clicks p [date; date] r
    = Returned tt
        (match entries (value r) with
         | [] => mkRoot Undefined date (months r) (effects r)
         | _ => r
         end).
Proof.
  intros p date r T PD A S. simpl. unfold bind.
  rewrite (handleCellClick_multiple p date r T), A, S.
  set (r1 := setValue (Many (entries (value r) ++ [date])) r).
  rewrite (handleCellClick_multiple p date r1 T).
  assert (A1 : accepted p date r1 = true).
  { unfold accepted in *. rewrite T in *. simpl.
    rewrite !andb_true_iff in A. rewrite andb_true_r. 
    apply andb_true_iff. tauto. }
  assert (S1 : isDateSelected r1 date = true).
  { rewrite isDateSelected_entries. simpl. rewrite existsb_app. simpl.
    now rewrite isSameDay_refl, orb_true_r. }
  rewrite A1, S1, PD. simpl entries.
  rewrite otherDays_app, otherDays_all
    by (now rewrite <- isDateSelected_entries).
  unfold otherDays at 1. simpl. rewrite isSameDay_refl. simpl.
  rewrite app_nil_r. unfold ret.
  apply accepted_shape in A. rewrite T in A.
  destruct r as [v ph ms es]. simpl in *.
  destruct v as [|one|ds]; try discriminate; [reflexivity|].
  destruct ds; reflexivity.
Qed.

Lemma multiple_click_twice_witness :
  let p := sampleProps multiple in
  let d1 := CalendarDate 2024 3 1 in
  let d2 := CalendarDate 2024 3 15 in
  clicks p [d1; d1] (mkRoot (Many [d2]) d2 [] [])
  = Returned tt (mkRoot (Many [d2]) d2 [] [])
  /\ clicks p [d1; d1] (mkRoot (Many []) d2 [] [])
     = Returned tt (mkRoot Undefined d1 [] []).
Proof.
  intros p d1 d2. split.
  - apply (multiple_click_twice p d1 (mkRoot (Many [d2]) d2 [] []));
      reflexivity.
  - apply (multiple_click_twice p d1 (mkRoot (Many []) d2 [] []));
      reflexivity.
Defined.

(** X5. A click never changes the months.  It moves the placeholder only
    when it takes a selection away altogether, and then to the date
    clicked. *)
Theorem click_frame :
  forall (p : Props) (date : DateValue) (r r' : Root),
    handleCellClick p date r = Returned tt r' ->
    months r' = months r
    /\ (placeholder r' = placeholder r
        \/ (placeholder r' = date /\ value r' = Undefined
            /\ isDateSelected r date = true)).
Proof.
  intros p date r r' H. apply handleCellClick_clicked in H.
  destruct H as [A|A T D|A T D|A T S|A T S PD|A T S PD O|A T S PD O];
    simpl; auto.
  split; [reflexivity|]. right. repeat split.
  unfold deselects in D. unfold isDateSelected.
  destruct (value r); try discriminate.
  now apply andb_true_iff in D.
Qed.

Lemma click_frame_witness :
  let p := sampleProps single in
  let d1 := CalendarDate 2024 3 1 in
  let r := mkRoot (One d1) (CalendarDate 2024 2 7) (createMonths p d1) [] in
  let r' := cleared d1 r in
  months r' = months r
  /\ (placeholder r' = placeholder r
      \/ (placeholder r' = d1 /\ value r' = Undefined
          /\ isDateSelected r d1 = true)).
Proof.
  intros p d1 r r'. apply (click_frame p d1 r r'). reflexivity.
Defined.

(** X6. In multiple mode a click announces nothing and does not call
    [onDateSelect], whatever it does to the selection. *)
Theorem multiple_click_silent :
  forall (p : Props) (date : DateValue) (r r' : Root),
    type p = multiple ->
    handleCellClick p date r = Returned tt r' ->
    effects r' = effects r.
Proof.
  intros p date r r' T H. apply handleCellClick_clicked in H.
  destruct H; try congruence; reflexivity.
Qed.

Lemma multiple_click_silent_witness :
  let p := sampleProps multiple in
  let d1 := CalendarDate 2024 3 1 in
  let r := mkRoot Undefined d1 [] [DateSelected] in
  effects (mkRoot (Many [d1]) d1 [] [DateSelected]) = effects r.
Proof.
  intros p d1 r.
  apply (multiple_click_silent p d1 r (mkRoot (Many [d1]) d1 [] [DateSelected]));
    reflexivity.
Defined.

(** X7. When a click has changed the value, and the day clicked is
    selected afterwards or nothing is, then after the watcher of the value
    has run the placeholder is the date clicked. *)
Theorem click_then_watch :
  forall (p : Props) (date : DateValue) (r r' : Root),
    handleCellClick p date r = Returned tt r' ->
    value r' <> value r ->
    isDateSelected r' date = true \/ value r' = Undefined ->
    placeholder (syncPlaceholder r') = date.
Proof.
  intros p date r r' H Ch Sel. apply handleCellClick_clicked in H.
  destruct H as [A|A T D|A T D|A T S|A T S PD|A T S PD O|A T S PD O];
    try contradiction; try reflexivity.
  - unfold syncPlaceholder. simpl. rewrite nth_error_last.
    destruct (entries (value r)); reflexivity.
  - exfalso. destruct Sel as [Sel|Sel]; [|discriminate].
    rewrite isDateSelected_entries in Sel. simpl in Sel.
    now rewrite otherDays_not_selected in Sel.
Qed.

Lemma click_then_watch_witness :
  let p := sampleProps multiple in
  let d1 := CalendarDate 2024 3 1 in
  let d2 := CalendarDate 2024 3 15 in
  let r := mkRoot (Many [d2]) d2 [] [] in
  placeholder (syncPlaceholder (mkRoot (Many [d2; d1]) d2 [] [])) = d1.
Proof.
  intros p d1 d2 r.
  apply (click_then_watch p d1 r (mkRoot (Many [d2; d1]) d2 [] [])).
  - reflexivity.
  - discriminate.
  - left. reflexivity.
Defined.

(** ** Cells and days *)

(** X8. The tab order of the days.  A day has tabindex 0 exactly when its
    date is of the day of the placeholder, disabled or not, so two days
    with tabindex 0 are the same day.  A day without a tabindex is marked
    disabled in [data-disabled] and in [aria-disabled]; a day with
    tabindex -1 is not marked in [data-disabled]; and what is marked in
    [data-disabled] is marked in [aria-disabled]. *)
Theorem day_tab_order :
  forall (p : Props) (outside : bool) (r : Root) (c c' : CalendarCellState.t),
    (CalendarDayState.tabindex p outside r c = Some 0
     <-> CalendarCellState.isFocusedDate r c = true)
    /\ (CalendarDayState.tabindex p outside r c = Some 0 ->
        CalendarDayState.tabindex p outside r c' = Some 0 ->
        isSameDay (CalendarCellState.date c) (CalendarCellState.date c') = true)
    /\ (CalendarDayState.tabindex p outside r c = None ->
        CalendarCellState.dataDisabled p outside c = true
        /\ CalendarCellState.ariaDisabled p outside c = true)
    /\ (CalendarDayState.tabindex p outside r c = Some (-1) ->
        CalendarCellState.dataDisabled p outside c = false)
    /\ (CalendarCellState.dataDisabled p outside c = true ->
        CalendarCellState.ariaDisabled p outside c = true).
Proof.
  intros p outside r c c'.
  assert (Zero : forall x, CalendarDayState.tabindex p outside r x = Some 0
                           <-> CalendarCellState.isFocusedDate r x = true).
  { intros x. unfold CalendarDayState.tabindex.
    destruct (CalendarCellState.isFocusedDate r x); [tauto|].
    destruct (_ || _); split; discriminate. }
  split; [apply Zero|]. split; [|split; [|split]].
  - intros H H'. apply Zero in H. apply Zero in H'.
    unfold CalendarCellState.isFocusedDate in *.
    apply isSameDay_trans with (placeholder r); [assumption|].
    now rewrite isSameDay_sym.
  - unfold CalendarDayState.tabindex, CalendarCellState.dataDisabled,
      CalendarCellState.ariaDisabled.
    destruct (CalendarCellState.isFocusedDate r c); [discriminate|].
    destruct (CalendarCellState.isOutsideMonth c && outside),
      (CalendarCellState.isDisabled p c); simpl; try discriminate; auto.
  - unfold CalendarDayState.tabindex, CalendarCellState.dataDisabled.
    destruct (CalendarCellState.isFocusedDate r c); [discriminate|].
    destruct (CalendarCellState.isOutsideMonth c && outside),
      (CalendarCellState.isDisabled p c); simpl; try discriminate; auto.
  - unfold CalendarCellState.dataDisabled, CalendarCellState.ariaDisabled.
    intros H. now rewrite H.
Qed.

Lemma day_tab_order_witness :
  let c := CalendarCellState.mk (CalendarDate 2024 1 5) (CalendarDate 2024 1 1) in
  let c' := CalendarCellState.mk (mkDate 2024 1 5 (Some 0)) (CalendarDate 2024 2 1) in
  let r := mkRoot Undefined (CalendarDate 2024 1 5) [] [] in
  isSameDay (CalendarCellState.date c) (CalendarCellState.date c') = true
  /\ CalendarCellState.ariaDisabled januaryProps true
       (CalendarCellState.mk (CalendarDate 2024 1 6) (CalendarDate 2024 1 1))
     = true.
Proof.
  intros c c' r. split.
  - apply (proj1 (proj2 (day_tab_order januaryProps true r c c')));
      reflexivity.
  - destruct (day_tab_order januaryProps true
                (mkRoot Undefined (CalendarDate 2024 1 12) [] [])
                (CalendarCellState.mk (CalendarDate 2024 1 6) (CalendarDate 2024 1 1))
                c') as [_ [_ [Gone _]]].
    apply Gone. reflexivity.
Defined.

(** X9. [disableDaysOutsideMonth] marks a day that lies outside the month
    of its grid as disabled, in [data-disabled] and in [aria-disabled],
    and does no more: a click on such a day goes to [handleCellClick] as
    on any other day, and with nothing selected in single mode it selects
    the date. *)
Theorem outside_month_day_takes_clicks :
  forall (p : Props) (r : Root) (c : CalendarCellState.t),
    CalendarCellState.isOutsideMonth c = true ->
    CalendarCellState.isDisabled p c = false ->
    CalendarCellState.dataDisabled p true c = true
    /\ CalendarCellState.ariaDisabled p true c = true
    /\ onclick p (CalendarCellState.date c) r
       = handleCellClick p (CalendarCellState.date c) r
    /\ (type p = single -> accepted p (CalendarCellState.date c) r = true ->
        value r = Undefined ->
        onclick p (CalendarCellState.date c) r
        = Returned tt (committed p (CalendarCellState.date c) r)).
Proof.
  intros p r c Out Dis.
  unfold CalendarCellState.dataDisabled, CalendarCellState.ariaDisabled.
  rewrite Out, Dis. simpl. repeat split.
  - unfold onclick. unfold CalendarCellState.isDisabled in Dis. now rewrite Dis.
  - intros T A V. unfold onclick.
    unfold CalendarCellState.isDisabled in Dis. rewrite Dis.
    rewrite (handleCellClick_single p T), (heeded_accepted p _ r T), A.
    unfold deselects. now rewrite V.
Qed.

Lemma outside_month_day_takes_clicks_witness :
  let p := sampleProps single in
  let c := CalendarCellState.mk (CalendarDate 2024 2 29) (CalendarDate 2024 3 1) in
  let r := emptyRoot p (CalendarDate 2024 3 10) in
  CalendarCellState.dataDisabled p true c = true
  /\ CalendarCellState.ariaDisabled p true c = true
  /\ onclick p (CalendarCellState.date c) r
     = handleCellClick p (CalendarCellState.date c) r
  /\ (type p = single -> accepted p (CalendarCellState.date c) r = true ->
      value r = Undefined ->
      onclick p (CalendarCellState.date c) r
      = Returned tt (committed p (CalendarCellState.date c) r)).
Proof.
  intros p c r.
  apply (outside_month_day_takes_clicks p r c); reflexivity.
Defined.

(** X10. A date is outside the visible months exactly when none of them is
    its month; so with no months every date is outside, and a cell that
    lies in the month of its grid, this month being visible, is not
    outside the visible months. *)
Theorem outside_visible_months :
  forall (r : Root) (c : CalendarCellState.t),
    (CalendarCellState.isOutsideVisibleMonths r c = false
     <-> exists m, In m (visibleMonths r)
                   /\ isSameMonth (CalendarCellState.date c) m = true)
    /\ (months r = [] -> CalendarCellState.isOutsideVisibleMonths r c = true)
    /\ (In (CalendarCellState.month c) (visibleMonths r) ->
        CalendarCellState.isOutsideMonth c = false ->
        CalendarCellState.isOutsideVisibleMonths r c = false).
Proof.
  intros r c.
  assert (Some_ : CalendarCellState.isOutsideVisibleMonths r c = false
                  <-> exists m, In m (visibleMonths r)
                                /\ isSameMonth (CalendarCellState.date c) m = true).
  { unfold CalendarCellState.isOutsideVisibleMonths, isOutsideVisibleMonths.
    rewrite negb_false_iff. apply existsb_exists. }
  split; [exact Some_|]. split.
  - intros E. unfold CalendarCellState.isOutsideVisibleMonths,
      isOutsideVisibleMonths, visibleMonths. now rewrite E.
  - intros Hin Out. apply Some_. exists (CalendarCellState.month c).
    split; [assumption|]. unfold CalendarCellState.isOutsideMonth in Out.
    now apply negb_false_iff in Out.
Qed.

Lemma outside_visible_months_witness :
  let p := sampleProps single in
  let r := emptyRoot p (CalendarDate 2024 1 31) in
  CalendarCellState.isOutsideVisibleMonths (mkRoot Undefined (CalendarDate 2024 1 31) [] [])
    (CalendarCellState.mk (CalendarDate 2024 2 14) (CalendarDate 2024 2 1)) = true
  /\ CalendarCellState.isOutsideVisibleMonths r
       (CalendarCellState.mk (CalendarDate 2024 2 14) (CalendarDate 2024 2 1))
     = false.
Proof.
  intros p r. split.
  - apply (proj1 (proj2 (outside_visible_months
                           (mkRoot Undefined (CalendarDate 2024 1 31) [] [])
                           (CalendarCellState.mk (CalendarDate 2024 2 14)
                                                 (CalendarDate 2024 2 1))))).
    reflexivity.
  - apply (proj2 (proj2 (outside_visible_months r
                           (CalendarCellState.mk (CalendarDate 2024 2 14)
                                                 (CalendarDate 2024 2 1))))).
    + right. left. reflexivity.
    + reflexivity.
Defined.

(** X11. Selected and focused go by the day: two cells whose dates are of
    one day are both selected or both not, and both focused or both not. *)
Theorem same_day_cells_agree :
  forall (r : Root) (c c' : CalendarCellState.t),
    isSameDay (CalendarCellState.date c) (CalendarCellState.date c') = true ->
    CalendarCellState.isSelectedDate r c = CalendarCellState.isSelectedDate r c'
    /\ CalendarCellState.isFocusedDate r c = CalendarCellState.isFocusedDate r c'.
Proof.
  intros r c c' Same. split.
  - unfold CalendarCellState.isSelectedDate. rewrite !isDateSelected_entries.
    induction (entries (value r)) as [|e es IH]; [reflexivity|]. simpl.
    rewrite IH. f_equal.
    rewrite (isSameDay_sym e), (isSameDay_sym e (CalendarCellState.date c')).
    now apply isSameDay_left.
  - unfold CalendarCellState.isFocusedDate. now apply isSameDay_left.
Qed.

Lemma same_day_cells_agree_witness :
  let c := CalendarCellState.mk (CalendarDate 2024 3 1) (CalendarDate 2024 3 1) in
  let c' := CalendarCellState.mk (mkDate 2024 3 1 (Some 43200000)) (CalendarDate 2024 2 1) in
  let r := mkRoot (Many [CalendarDate 2024 3 15; CalendarDate 2024 3 1])
                  (CalendarDate 2024 3 1) [] [] in
  CalendarCellState.isSelectedDate r c = CalendarCellState.isSelectedDate r c'
  /\ CalendarCellState.isFocusedDate r c = CalendarCellState.isFocusedDate r c'.
Proof.
  intros c c' r. apply (same_day_cells_agree r c c'). reflexivity.
Defined.

(** ** Taking a day away *)

Lemma distinct_split (date : DateValue) (ds : list DateValue) :
  NoDup (map dayKey ds) ->
  existsb (fun e => isSameDay e date) ds = true ->
  exists front e back,
    ds = front ++ e :: back /\ isSameDay e date = true
    /\ otherDays date ds = front ++ back.
Proof.
  induction ds as [|x rest IH]; intros N S; [discriminate S|].
  simpl in N, S. inversion N as [|k ks Hk N']; subst.
  destruct (isSameDay x date) eqn:X.
  - exists [], x, rest. split; [reflexivity|]. split; [assumption|].
    unfold otherDays. simpl. rewrite X. simpl. apply otherDays_all.
    apply not_true_iff_false. intros E. apply Hk.
    apply existsb_exists in E. destruct E as [e [Hin He]].
    apply in_map_iff. exists e. split; [|assumption].
    apply isSameDay_dayKey. apply isSameDay_trans with date; [assumption|].
    now rewrite isSameDay_sym.
  - simpl in S. destruct (IH N' S) as [front [e [back [E [He O]]]]].
    exists (x :: front), e, back. repeat split.
    + simpl. now rewrite E.
    + assumption.
    + unfold otherDays in *. simpl. rewrite X. simpl. now rewrite O.
Qed.

(** X12. In multiple mode, with deselecting allowed and no two entries of
    one day, a click past the guards on a day that is selected takes out
    one entry, the one of that day, and leaves the others in their
    order. *)
Theorem multiple_click_removes_one :
  forall (p : Props) (date : DateValue) (r : Root),
    type p = multiple -> preventDeselect p = false ->
    accepted p date r = true -> isDateSelected r date = true ->
    distinctDays (value r) ->
    exists r' front e back,
      handleCellClick p date r = Returned tt r'
      /\ entries (value r) = front ++ e :: back
      /\ isSameDay e date = true
      /\ entries (value r') = front ++ back.
Proof.
  intros p date r T PD A S D.
  rewrite (handleCellClick_multiple p date r T), A, S, PD.
  assert (N : NoDup (map dayKey (entries (value r)))).
  { destruct (value r); simpl in *; [constructor| |assumption].
    repeat constructor. intros []. }
  rewrite isDateSelected_entries in S.
  destruct (distinct_split date (entries (value r)) N S)
    as [front [e [back [E [He O]]]]].
  rewrite O.
  destruct (front ++ back) eqn:FB; eexists; exists front, e, back;
    (split; [reflexivity|]); repeat split; auto.
Qed.

Lemma multiple_click_removes_one_witness :
  let p := sampleProps multiple in
  let d1 := CalendarDate 2024 3 1 in
  let d2 := CalendarDate 2024 3 15 in
  let d3 := CalendarDate 2024 3 20 in
  let r := mkRoot (Many [d1; d2; d3]) d3 [] [] in
  exists r' front e back,
    handleCellClick p (mkDate 2024 3 15 (Some 0)) r = Returned tt r'
    /\ entries (value r) = front ++ e :: back
    /\ isSameDay e (mkDate 2024 3 15 (Some 0)) = true
    /\ entries (value r') = front ++ back.
Proof.
  intros p d1 d2 d3 r.
  apply (multiple_click_removes_one p (mkDate 2024 3 15 (Some 0)) r);
    try reflexivity.
  simpl. repeat constructor; simpl; intuition discriminate.
Defined.

(** ** Invalid selections *)

Lemma anyRejected_existsb (p : Props) (ds : list DateValue) :
  anyRejected p ds
  = existsb (fun d => isDateDisabledProp p d || isDateUnavailableProp p d) ds.
Proof.
  induction ds as [|d ds IH]; [reflexivity|]. simpl. rewrite IH.
  destruct (isDateDisabledProp p d), (isDateUnavailableProp p d); reflexivity.
Qed.

Lemma isInvalid_entries (p : Props) (r : Root) :
  isInvalid p r
  = existsb (fun d => isDateDisabledProp p d || isDateUnavailableProp p d)
            (entries (value r)).
Proof.
  unfold isInvalid. destruct (value r) as [|v|ds]; simpl.
  - reflexivity.
  - destruct (isDateDisabledProp p v), (isDateUnavailableProp p v); reflexivity.
  - rewrite <- anyRejected_existsb. destruct ds; reflexivity.
Qed.

Lemma existsb_otherDays (f : DateValue -> bool) (date : DateValue)
      (ds : list DateValue) :
  existsb f ds = false -> existsb f (otherDays date ds) = false.
Proof.
  induction ds as [|d ds IH]; [reflexivity|]. unfold otherDays in *. simpl.
  intros H. apply orb_false_iff in H. destruct H as [Hd H].
  destruct (negb (isSameDay d date)); simpl; [rewrite Hd|]; auto.
Qed.

(** X13. [isInvalid] holds exactly when some date of the stored value is
    rejected by the disabled matcher or by the unavailable matcher; with
    nothing stored it does not hold. *)
Theorem isInvalid_spec :
  forall (p : Props) (r : Root),
    (isInvalid p r = true
     <-> exists d, In d (entries (value r))
                   /\ (isDateDisabledProp p d = true
                       \/ isDateUnavailableProp p d = true))
    /\ (entries (value r) = [] -> isInvalid p r = false).
Proof.
  intros p r. rewrite isInvalid_entries. split.
  - rewrite existsb_exists. split; intros [d [Hin H]]; exists d;
      (split; [assumption|]); now apply orb_true_iff.
  - intros E. now rewrite E.
Qed.

Lemma isInvalid_spec_witness :
  isInvalid (pickyProps multiple false)
            (mkRoot (Many [CalendarDate 2024 3 15; CalendarDate 2024 4 1])
                    (CalendarDate 2024 3 15) [] []) = true
  /\ isInvalid (pickyProps multiple false)
               (mkRoot (Many []) (CalendarDate 2024 3 15) [] []) = false.
Proof.
  split.
  - apply (proj1 (isInvalid_spec (pickyProps multiple false) _)).
    exists (CalendarDate 2024 4 1). split; [right; left; reflexivity|].
    left. reflexivity.
  - apply (proj2 (isInvalid_spec (pickyProps multiple false) _)). reflexivity.
Defined.

(** X14. Clicks do not make a selection invalid: from a root that is not
    invalid every run of clicks, with the watcher of the value in between,
    comes to a root that is not invalid. *)
Theorem clicks_keep_valid :
  forall (p : Props) (r r' : Root),
    isInvalid p r = false -> reaches p r r' -> isInvalid p r' = false.
Proof.
  intros p r r' V R. induction R as [r|r r1 r2 R IH S]; [assumption|].
  specialize (IH V). destruct S as [r1 date r2 H|r1].
  - apply handleCellClick_clicked in H. rewrite isInvalid_entries in *.
    assert (G : forall x, accepted p date x = true ->
                          isDateDisabledProp p date
                          || isDateUnavailableProp p date = false).
    { intros x A. unfold accepted in A. rewrite !andb_true_iff in A.
      destruct A as [[_ A] _]. now apply negb_true_iff in A. }
    destruct H as [A|A T D|A T D|A T S|A T S PD|A T S PD O|A T S PD O];
      simpl; auto.
    + now rewrite (G r1 A).
    + rewrite existsb_app, IH. simpl. now rewrite (G r1 A).
    + now apply existsb_otherDays.
  - rewrite isInvalid_entries in *. now rewrite syncPlaceholder_value.
Qed.

Lemma clicks_keep_valid_witness :
  let p := pickyProps multiple false in
  let r := mkRoot Undefined (CalendarDate 2024 3 15) [] [] in
  isInvalid p (mkRoot (Many [CalendarDate 2024 3 15]) (CalendarDate 2024 3 15) [] [])
  = false.
Proof.
  intros p r.
  apply (clicks_keep_valid p r); [reflexivity|].
  apply reaches_step with r; [apply reaches_here|].
  apply step_click with (CalendarDate 2024 3 15). reflexivity.
Defined.

(** ** No click throws *)

(** X15. Neither [handleCellClick] nor the click on a day nor a run of
    clicks throws, in a development build or in a production build and
    whatever is stored: the two update helpers, which can throw, are
    never called with a value that makes them. *)
Theorem click_never_throws :
  forall (p : Props) (date : DateValue) (dates : list DateValue) (r : Root)
         (message : string),
    handleCellClick p date r <> Thrown message
    /\ onclick p date r <> Thrown message
    /\ clicks p dates r <> Thrown message
    /\ (forall stored, value r = One stored ->
        exists r' next, handleSingleUpdate p (value r) date r = Returned next r')
    /\ (forall stored, value r = Many stored ->
        exists r' next,
          handleMultipleUpdate p (value r) date r = Returned next r').
Proof.
  intros p date dates r message.
  assert (H : handleCellClick p date r <> Thrown message).
  { destruct (handleCellClick_returns p date r) as [r' E]. now rewrite E. }
  split; [exact H|]. split; [|split; [|split]].
  - unfold onclick. destruct (isDateDisabled p date); [discriminate|exact H].
  - destruct (clicks_returns p dates r) as [r' [E _]]. now rewrite E.
  - intros stored V. rewrite V. unfold handleSingleUpdate, bind, modify, ret.
    destruct (negb (preventDeselect p) && isSameDay stored date); eauto.
  - intros stored V. rewrite V. unfold handleMultipleUpdate, bind, modify, ret.
    destruct (absent date stored); [eauto|].
    destruct (preventDeselect p); [eauto|].
    destruct (filter _ stored); eauto.
Qed.

Lemma click_never_throws_witness :
  let p := sampleProps single in
  let d1 := CalendarDate 2024 3 1 in
  let r := mkRoot (One d1) d1 [] [] in
  exists r' next, handleSingleUpdate p (value r) d1 r = Returned next r'.
Proof.
  intros p d1 r.
  apply (proj1 (proj2 (proj2 (proj2
           (click_never_throws p d1 [] r "Invalid value for single prop."))))
           d1).
  reflexivity.
Defined.

(** ** Toggling the items of a toolbar group *)

Lemma toolbar_includes_filter (value : list string) (item other : string) :
  other <> item ->
  existsb (fun v => String.eqb v other)
          (filter (fun v => negb (String.eqb v item)) value)
  = existsb (fun v => String.eqb v other) value.
Proof.
  intros N. induction value as [|v rest IH]; [reflexivity|]. simpl.
  destruct (String.eqb v item) eqn:E; simpl; rewrite IH; [|reflexivity].
  apply String.eqb_eq in E. subst v.
  destruct (String.eqb item other) eqn:O; [|reflexivity].
  apply String.eqb_eq in O. congruence.
Qed.

Lemma toolbar_filter_absent (value : list string) (item : string) :
  existsb (fun v => String.eqb v item) value = false ->
  filter (fun v => negb (String.eqb v item)) value = value.
Proof.
  induction value as [|v rest IH]; [reflexivity|]. simpl. intros H.
  apply orb_false_iff in H. destruct H as [E H]. rewrite E. simpl.
  now rewrite IH.
Qed.

Lemma toolbar_filter_gone (value : list string) (item : string) :
  existsb (fun v => String.eqb v item)
          (filter (fun v => negb (String.eqb v item)) value) = false.
Proof.
  induction value as [|v rest IH]; [reflexivity|]. simpl.
  destruct (String.eqb v item) eqn:E; simpl; [assumption|]. now rewrite E.
Qed.

(** X16. A single toolbar group is a radio group.  Toggling an item other
    than the empty string presses it if it was not pressed and releases it
    if it was; afterwards no other item is pressed (the empty string
    apart), and [anyPressed] tells whether the item is.  Toggling the
    empty string leaves the empty string for the value, with nothing
    pressed. *)
Theorem toolbar_single_toggle :
  forall (value item : string),
    (item <> "" ->
     Toolbar.includesItem (Toolbar.toggleItem (Toolbar.Single value) item) item
     = negb (Toolbar.includesItem (Toolbar.Single value) item)
     /\ Toolbar.anyPressed (Toolbar.toggleItem (Toolbar.Single value) item)
        = Toolbar.includesItem (Toolbar.toggleItem (Toolbar.Single value) item)
                               item)
    /\ (forall other,
           Toolbar.includesItem (Toolbar.toggleItem (Toolbar.Single value) item)
                                other = true ->
           other = item \/ other = "")
    /\ Toolbar.toggleItem (Toolbar.Single value) "" = Toolbar.Single ""
    /\ Toolbar.anyPressed (Toolbar.toggleItem (Toolbar.Single value) "") = false.
Proof.
  intros value item. unfold Toolbar.toggleItem, Toolbar.includesItem.
  split; [|split; [|split]].
  - intros N. destruct item as [|c rest]; [congruence|].
    destruct (String.eqb value (String c rest)) eqn:E.
    + split; reflexivity.
    + rewrite String.eqb_refl. split; reflexivity.
  - intros other. destruct (String.eqb value item); intros H;
      apply String.eqb_eq in H; auto.
  - destruct (String.eqb value ""); reflexivity.
  - destruct (String.eqb value ""); reflexivity.
Qed.

Lemma toolbar_single_toggle_witness :
  Toolbar.includesItem (Toolbar.toggleItem (Toolbar.Single "bold") "italic")
                       "italic"
  = negb (Toolbar.includesItem (Toolbar.Single "bold") "italic")
  /\ ("bold" = "bold" \/ "bold" = "").
Proof.
  destruct (toolbar_single_toggle "bold" "italic") as [Flip _].
  destruct (toolbar_single_toggle "" "bold") as [_ [Radio _]].
  split.
  - apply Flip. discriminate.
  - apply Radio. reflexivity.
Defined.

(** X17. In a multiple toolbar group toggling an item presses it if it was
    not pressed and releases it if it was, and leaves every other item as
    it was.  Toggling twice an item that was not pressed gives back the
    array as it was, and after the first of the two something is
    pressed. *)
Theorem toolbar_multiple_toggle :
  forall (value : list string) (item : string),
    Toolbar.includesItem (Toolbar.toggleItem (Toolbar.Multiple value) item) item
    = negb (Toolbar.includesItem (Toolbar.Multiple value) item)
    /\ (forall other, other <> item ->
          Toolbar.includesItem (Toolbar.toggleItem (Toolbar.Multiple value) item)
                               other
          = Toolbar.includesItem (Toolbar.Multiple value) other)
    /\ (Toolbar.includesItem (Toolbar.Multiple value) item = false ->
        Toolbar.toggleItem (Toolbar.toggleItem (Toolbar.Multiple value) item) item
        = Toolbar.Multiple value
        /\ Toolbar.anyPressed (Toolbar.toggleItem (Toolbar.Multiple value) item)
           = true).
Proof.
  intros value item. unfold Toolbar.toggleItem, Toolbar.includesItem.
  destruct (existsb (fun v => String.eqb v item) value) eqn:I.
  - split; [apply toolbar_filter_gone|]. split; [|discriminate].
    intros other N. now apply toolbar_includes_filter.
  - split; [|split].
    + rewrite existsb_app. simpl. now rewrite String.eqb_refl, orb_true_r.
    + intros other N. rewrite existsb_app. simpl.
      assert (F : String.eqb item other = false)
        by (apply String.eqb_neq; congruence).
      now rewrite F, !orb_false_r.
    + intros _. split.
      * rewrite existsb_app. simpl. rewrite String.eqb_refl, orb_true_r.
        rewrite filter_app. simpl. rewrite String.eqb_refl. simpl.
        now rewrite toolbar_filter_absent, app_nil_r.
      * unfold Toolbar.anyPressed. rewrite length_app. simpl.
        apply Nat.ltb_lt. lia.
Qed.

Lemma toolbar_multiple_toggle_witness :
  Toolbar.includesItem (Toolbar.toggleItem (Toolbar.Multiple ["bold"]) "italic")
                       "bold"
  = Toolbar.includesItem (Toolbar.Multiple ["bold"]) "bold"
  /\ Toolbar.toggleItem (Toolbar.toggleItem (Toolbar.Multiple ["bold"]) "italic")
                        "italic"
     = Toolbar.Multiple ["bold"].
Proof.
  destruct (toolbar_multiple_toggle ["bold"] "italic") as [_ [Others Twice]].
  split.
  - apply Others. discriminate.
  - apply Twice. reflexivity.
Defined.

(** ** Typeahead *)

Lemma mod_wrap (x n : nat) : (n <= x < n + n -> x mod n = x - n)%nat.
Proof.
  intros H. symmetry. apply (Nat.mod_unique x n 1); lia.
Qed.

Lemma wrapArray_rotation (T : Type) (array : list T) (startIndex : nat) :
  Typeahead.wrapArray array startIndex
  = skipn (startIndex mod List.length array) array
    ++ firstn (startIndex mod List.length array) array.
Proof.
  destruct array as [|first rest]; [now destruct startIndex|].
  change (Typeahead.wrapArray (first :: rest) startIndex)
    with (map (fun index =>
                 nth ((startIndex + index) mod List.length (first :: rest))
                     (first :: rest) first)
              (seq 0 (List.length (first :: rest)))).
  set (array := first :: rest). set (n := List.length array).
  assert (Pos : (0 < n)%nat) by (unfold n, array; simpl; lia).
  set (k := (startIndex mod n)%nat).
  assert (K : (k < n)%nat) by (apply Nat.mod_upper_bound; lia).
  apply (nth_ext _ _ first first).
  - rewrite length_map, length_seq, length_app, length_skipn, length_firstn.
    fold n. lia.
  - intros i Hi. rewrite length_map, length_seq in Hi.
    rewrite (nth_indep _ _ (nth ((startIndex + 0) mod n) array first))
      by (rewrite length_map, length_seq; lia).
    rewrite (map_nth (fun index => nth ((startIndex + index) mod n) array first)).
    rewrite seq_nth by lia. rewrite Nat.add_0_l.
    rewrite <- Nat.Div0.add_mod_idemp_l. fold k.
    destruct (Nat.lt_ge_cases (k + i) n) as [Small|Large].
    + rewrite Nat.mod_small by lia.
      rewrite app_nth1 by (rewrite length_skipn; fold n; lia).
      now rewrite nth_skipn.
    + rewrite mod_wrap by lia.
      rewrite app_nth2 by (rewrite length_skipn; fold n; lia).
      rewrite length_skipn. fold n. rewrite nth_firstn.
      replace (i - (n - k))%nat with (k + i - n)%nat by lia.
      assert (L : (k + i - n <? k)%nat = true) by (apply Nat.ltb_lt; lia).
      now rewrite L.
Qed.

Lemma wrapArray_permutation (T : Type) (array : list T) (startIndex : nat) :
  Permutation array (Typeahead.wrapArray array startIndex).
Proof.
  rewrite wrapArray_rotation.
  rewrite <- (firstn_skipn (startIndex mod List.length array) array) at 1.
  apply Permutation_app_comm.
Qed.

(** X18. [wrapArray] turns the array round: it gives the elements from the
    start index on, followed by those before it, the index being taken
    modulo the length.  So it keeps the length and the elements, and a
    start index of 0, or of the length, gives the array back; the empty
    array stays empty. *)
Theorem wrapArray_rotates :
  forall (T : Type) (array : list T) (startIndex : nat),
    Typeahead.wrapArray array startIndex
    = skipn (startIndex mod List.length array) array
      ++ firstn (startIndex mod List.length array) array
    /\ List.length (Typeahead.wrapArray array startIndex) = List.length array
    /\ Permutation array (Typeahead.wrapArray array startIndex)
    /\ Typeahead.wrapArray array 0 = array
    /\ Typeahead.wrapArray array (List.length array) = array.
Proof.
  intros T array startIndex.
  pose proof (wrapArray_rotation T array) as R.
  split; [apply R|]. split; [|split; [|split]].
  - rewrite R, length_app, length_skipn, length_firstn.
    destruct array as [|x xs]; [now destruct startIndex|].
    assert (K : (startIndex mod List.length (x :: xs)
                 < List.length (x :: xs))%nat)
      by (apply Nat.mod_upper_bound; discriminate).
    lia.
  - apply wrapArray_permutation.
  - rewrite R. destruct array as [|x xs]; [reflexivity|].
    rewrite Nat.Div0.mod_0_l. simpl. now rewrite app_nil_r.
  - rewrite R. destruct array as [|x xs]; [reflexivity|].
    rewrite Nat.Div0.mod_same. simpl. now rewrite app_nil_r.
Qed.

Example wrapArray_sample :
  Typeahead.wrapArray ["a"; "b"; "c"; "d"] 2 = ["c"; "d"; "a"; "b"].
Proof. reflexivity. Qed.

Lemma normalize_idempotent (search : string) :
  Typeahead.normalize (Typeahead.normalize search) = Typeahead.normalize search.
Proof.
  unfold Typeahead.normalize.
  destruct (Typeahead.isRepeated search) eqn:R.
  - destruct search as [|c rest]; reflexivity.
  - now rewrite R.
Qed.

Lemma normalize_repeated (c : Ascii.ascii) (n : nat) :
  Typeahead.normalize (Typeahead.repeated c (S n)) = String c EmptyString.
Proof.
  destruct n as [|n]; [reflexivity|].
  unfold Typeahead.normalize.
  assert (R : Typeahead.isRepeated (Typeahead.repeated c (S (S n))) = true).
  { unfold Typeahead.isRepeated. simpl Typeahead.repeated.
    apply andb_true_iff. split; [reflexivity|].
    change (forallb (fun char => Ascii.eqb char c)
                    (list_ascii_of_string (Typeahead.repeated c (S (S n))))
            = true).
    generalize (S (S n)). intros m. induction m as [|m IH]; [reflexivity|].
    simpl. now rewrite Ascii.eqb_refl, IH. }
  now rewrite R.
Qed.

(** X19. A character pressed again and again searches as the character
    pressed once: for a search made of one character repeated,
    [getNextMatch] gives what it gives for that character alone; and in
    general it gives for a search what it gives for the normalized
    search. *)
Theorem getNextMatch_repeated :
  forall (toLowerCase : string -> string) (values : list string)
         (currentMatch : option string),
    (forall (c : Ascii.ascii) (n : nat),
        Typeahead.getNextMatch toLowerCase values
                               (Typeahead.repeated c (S n)) currentMatch
        = Typeahead.getNextMatch toLowerCase values (String c EmptyString)
                                 currentMatch)
    /\ (forall search,
          Typeahead.getNextMatch toLowerCase values search currentMatch
          = Typeahead.getNextMatch toLowerCase values
                                   (Typeahead.normalize search) currentMatch).
Proof.
  intros toLowerCase values currentMatch.
  assert (N : forall search,
             Typeahead.getNextMatch toLowerCase values search currentMatch
             = Typeahead.getNextMatch toLowerCase values
                                      (Typeahead.normalize search) currentMatch).
  { intros search. unfold Typeahead.getNextMatch.
    now rewrite normalize_idempotent. }
  split; [|exact N].
  intros c n. now rewrite N, normalize_repeated.
Qed.

Example getNextMatch_sample :
  let values := ["Apple"; "avocado"; "Banana"; "apricot"] in
  Typeahead.getNextMatch Typeahead.lower values "a" (Some "Apple")
  = Some "avocado"
  /\ Typeahead.getNextMatch Typeahead.lower values "aaa" (Some "avocado")
     = Some "apricot"
  /\ Typeahead.getNextMatch Typeahead.lower values "a" (Some "apricot")
     = Some "Apple"
  /\ Typeahead.getNextMatch Typeahead.lower values "ap" (Some "Apple") = None
  /\ Typeahead.getNextMatch Typeahead.lower values "av" (Some "Apple")
     = Some "avocado"
  /\ Typeahead.getNextMatch Typeahead.lower values "b" None = Some "Banana"
  /\ Typeahead.getNextMatch Typeahead.lower values "c" None = None
  /\ Typeahead.getNextMatch Typeahead.lower [] "a" None = None.
Proof. vm_compute. repeat split. Qed.

Lemma indexOfFrom_In (x : string) (array : list string) (from : Z) :
  In x array ->
  from <= Typeahead.indexOfFrom x array from
       < from + Z.of_nat (List.length array)
  /\ nth_error array (Z.to_nat (Typeahead.indexOfFrom x array from - from))
     = Some x.
Proof.
  revert from. induction array as [|y rest IH]; intros from Hin; [destruct Hin|].
  simpl Typeahead.indexOfFrom. destruct (String.eqb y x) eqn:E.
  - apply String.eqb_eq in E. subst y. rewrite Z.sub_diag. simpl.
    split; [lia|reflexivity].
  - destruct Hin as [->|Hin]; [now rewrite String.eqb_refl in E|].
    destruct (IH (from + 1) Hin) as [B N]. split; [simpl List.length; lia|].
    replace (Typeahead.indexOfFrom x rest (from + 1) - from)
      with (Z.succ (Typeahead.indexOfFrom x rest (from + 1) - (from + 1)))
      by lia.
    rewrite Z2Nat.inj_succ by lia. exact N.
Qed.

Lemma skipn_nth_error (T : Type) (array : list T) (i : nat) (x : T) :
  nth_error array i = Some x -> exists rest, skipn i array = x :: rest.
Proof.
  revert i. induction array as [|y ys IH]; intros [|i] H; simpl in *;
    try discriminate.
  - injection H as ->. eauto.
  - now apply IH.
Qed.

Lemma wrapArray_In (values : list string) (startIndex : nat) (v : string) :
  In v (Typeahead.wrapArray values startIndex) <-> In v values.
Proof.
  split; intros H.
  - apply Permutation_in with (Typeahead.wrapArray values startIndex);
      [|assumption].
    apply Permutation_sym. apply wrapArray_permutation.
  - apply Permutation_in with values; [|assumption].
    apply wrapArray_permutation.
Qed.

(** X20. What [getNextMatch] gives is one of the values, it starts with
    the normalized search when both are in lower case, and it is not the
    current match. *)
Theorem getNextMatch_sound :
  forall (toLowerCase : string -> string) (values : list string)
         (search : string) (currentMatch : option string) (next : string),
    Typeahead.getNextMatch toLowerCase values search currentMatch = Some next ->
    In next values
    /\ String.prefix (toLowerCase (Typeahead.normalize search))
                     (toLowerCase next) = true
    /\ currentMatch <> Some next.
Proof.
  intros toLowerCase values search currentMatch next H.
  unfold Typeahead.getNextMatch in H.
  set (start := Z.to_nat _) in H.
  destruct (find _ _) as [found|] eqn:F; [|discriminate].
  destruct (Typeahead.differs currentMatch found) eqn:D; [|discriminate].
  injection H as <-. apply find_some in F. destruct F as [Hin P].
  split; [|split].
  - destruct (String.length (Typeahead.normalize search) =? 1)%nat.
    + apply filter_In in Hin. now apply (wrapArray_In values start).
    + now apply (wrapArray_In values start).
  - exact P.
  - intros ->. simpl in D. now rewrite String.eqb_refl in D.
Qed.

Lemma getNextMatch_sound_witness :
  In "avocado" ["Apple"; "avocado"; "Banana"]
  /\ String.prefix (Typeahead.lower (Typeahead.normalize "aa"))
                   (Typeahead.lower "avocado") = true
  /\ Some "Apple" <> Some "avocado".
Proof.
  apply (getNextMatch_sound Typeahead.lower ["Apple"; "avocado"; "Banana"]
                            "aa" (Some "Apple") "avocado").
  reflexivity.
Defined.

(** X21. With a search of several different characters the match does not
    move while the current match still matches: when the current match is
    one of the values and starts with the search, [getNextMatch] gives
    [undefined]. *)
Theorem getNextMatch_stays :
  forall (toLowerCase : string -> string) (values : list string)
         (search current : string),
    current <> "" -> In current values ->
    String.length (Typeahead.normalize search) <> 1%nat ->
    String.prefix (toLowerCase (Typeahead.normalize search))
                  (toLowerCase current) = true ->
    Typeahead.getNextMatch toLowerCase values search (Some current) = None.
Proof.
  intros toLowerCase values search current NE Hin Len P.
  unfold Typeahead.getNextMatch.
  rewrite (proj2 (String.eqb_neq current "") NE).
  rewrite (proj2 (Nat.eqb_neq _ 1%nat) Len).
  destruct (indexOfFrom_In current values 0 Hin) as [B N].
  fold (Typeahead.indexOf values current) in B, N.
  rewrite Z.sub_0_r in N. rewrite Z.max_l by lia.
  rewrite wrapArray_rotation.
  rewrite Nat.mod_small by lia.
  destruct (skipn_nth_error _ values _ current N) as [rest S].
  rewrite S. simpl. rewrite P. simpl. now rewrite String.eqb_refl.
Qed.

Lemma getNextMatch_stays_witness :
  Typeahead.getNextMatch Typeahead.lower ["Apple"; "avocado"; "apricot"]
                         "ap" (Some "apricot") = None.
Proof.
  apply (getNextMatch_stays Typeahead.lower); try reflexivity.
  - discriminate.
  - right. right. left. reflexivity.
  - discriminate.
Defined.

(** X22. With a search of one character, pressed once or several times,
    the match moves whenever it can: if some value other than the current
    match starts with the character, [getNextMatch] gives a value. *)
Theorem getNextMatch_moves :
  forall (toLowerCase : string -> string) (values : list string)
         (search : string) (currentMatch : option string) (other : string),
    String.length (Typeahead.normalize search) = 1%nat ->
    In other values -> currentMatch <> Some other ->
    String.prefix (toLowerCase (Typeahead.normalize search))
                  (toLowerCase other) = true ->
    exists next,
      Typeahead.getNextMatch toLowerCase values search currentMatch = Some next.
Proof.
  intros toLowerCase values search currentMatch other Len Hin NE P.
  unfold Typeahead.getNextMatch. set (start := Z.to_nat _).
  rewrite Len. simpl Nat.eqb. cbv iota.
  assert (D : Typeahead.differs currentMatch other = true).
  { destruct currentMatch as [current|]; [|reflexivity]. simpl.
    apply negb_true_iff. apply String.eqb_neq. congruence. }
  destruct (find _ _) as [found|] eqn:F.
  - apply find_some in F. destruct F as [Hf _]. apply filter_In in Hf.
    destruct Hf as [_ Df]. rewrite Df. eauto.
  - exfalso. rewrite (find_none _ _ F other) in P; [discriminate|].
    apply filter_In. split; [|assumption]. now apply wrapArray_In.
Qed.

Lemma getNextMatch_moves_witness :
  exists next,
    Typeahead.getNextMatch Typeahead.lower ["Apple"; "Banana"; "avocado"]
                           "AAA" (Some "Apple") = Some next.
Proof.
  apply (getNextMatch_moves Typeahead.lower _ "AAA" (Some "Apple") "avocado").
  - reflexivity.
  - right. right. left. reflexivity.
  - discriminate.
  - reflexivity.
Defined.

(** ** The keys of an accordion trigger *)

Lemma accordion_indexOfFrom (itemEl : nat) (items : list nat) (i : nat)
      (from : Z) :
  NoDup items -> nth_error items i = Some itemEl ->
  Accordion.indexOfFrom itemEl items from = from + Z.of_nat i.
Proof.
  revert i from. induction items as [|x rest IH]; intros i from N H.
  - destruct i; discriminate.
  - inversion N as [|y ys Hx N']; subst. simpl. destruct i as [|i].
    + injection H as ->. rewrite Nat.eqb_refl. simpl. lia.
    + simpl in H. destruct (Nat.eqb x itemEl) eqn:E.
      * apply Nat.eqb_eq in E. subst x. exfalso. apply Hx.
        now apply nth_error_In with i.
      * rewrite (IH i (from + 1) N' H). lia.
Qed.

Lemma accordion_at (items : list nat) (j : nat) :
  Accordion.at_ items (Z.of_nat j) = nth_error items j.
Proof.
  unfold Accordion.at_.
  assert (F : (Z.of_nat j <? 0) = false) by (apply Z.ltb_ge; lia).
  now rewrite F, Nat2Z.id.
Qed.

Lemma accordion_arrow (key : Accordion.Key) (items : list nat)
      (itemEl : nat) (i j : nat) :
  NoDup items -> nth_error items i = Some itemEl ->
  (key = Accordion.ARROW_DOWN /\ j = ((i + 1) mod List.length items)%nat
   \/ key = Accordion.ARROW_UP
      /\ j = ((i + List.length items - 1) mod List.length items)%nat) ->
  exists target,
    nth_error items j = Some target
    /\ Accordion.onkeydown false key items itemEl = Accordion.Focus target.
Proof.
  intros N H K.
  assert (Len : (i < List.length items)%nat)
    by (apply nth_error_Some; congruence).
  assert (J : (j < List.length items)%nat)
    by (destruct K as [[_ ->]|[_ ->]]; apply Nat.mod_upper_bound; lia).
  destruct (nth_error items j) as [target|] eqn:T;
    [|apply nth_error_None in T; lia].
  exists target. split; [reflexivity|].
  unfold Accordion.onkeydown, Accordion.indexOf.
  rewrite (accordion_indexOfFrom itemEl items i 0 N H).
  destruct items as [|x rest] eqn:I; [simpl in Len; lia|]. rewrite <- I in *.
  assert (Index : Accordion.keyToIndex key (0 + Z.of_nat i)
                                       (Z.of_nat (List.length items))
                  = Some (Z.of_nat j)).
  { destruct K as [[-> ->]|[-> ->]]; simpl; f_equal.
    - rewrite Z.rem_mod_nonneg by lia. rewrite Nat2Z.inj_mod. f_equal. lia.
    - rewrite Z.rem_mod_nonneg by lia. rewrite Nat2Z.inj_mod. f_equal. lia. }
  destruct K as [[-> _]|[-> _]]; rewrite Index, accordion_at, T; reflexivity.
Qed.

(** X23. On the triggers that are not disabled, the arrow keys undo each
    other: the trigger that ArrowDown focuses from a trigger focuses this
    trigger on ArrowUp, and the one that ArrowUp focuses comes back to it
    on ArrowDown; this holds at both ends, where the arrows wrap round. *)
Theorem accordion_arrows_undo :
  forall (candidateItems : list nat) (itemEl : nat),
    NoDup candidateItems -> In itemEl candidateItems ->
    exists next previous,
      Accordion.onkeydown false Accordion.ARROW_DOWN candidateItems itemEl
      = Accordion.Focus next
      /\ Accordion.onkeydown false Accordion.ARROW_UP candidateItems next
         = Accordion.Focus itemEl
      /\ Accordion.onkeydown false Accordion.ARROW_UP candidateItems itemEl
         = Accordion.Focus previous
      /\ Accordion.onkeydown false Accordion.ARROW_DOWN candidateItems previous
         = Accordion.Focus itemEl.
Proof.
  intros items itemEl N Hin.
  destruct (In_nth_error items itemEl Hin) as [i H].
  assert (Len : (i < List.length items)%nat)
    by (apply nth_error_Some; congruence).
  set (n := List.length items) in *.
  destruct (accordion_arrow Accordion.ARROW_DOWN items itemEl i
                            ((i + 1) mod n)%nat N H) as [next [Hn Down]];
    [now left|].
  destruct (accordion_arrow Accordion.ARROW_UP items itemEl i
                            ((i + n - 1) mod n)%nat N H) as [prev [Hp Up]];
    [now right|].
  assert (Back : (((i + 1) mod n + n - 1) mod n = i)%nat).
  { destruct (Nat.lt_ge_cases (i + 1) n) as [S|L].
    - rewrite (Nat.mod_small (i + 1)) by lia.
      replace (i + 1 + n - 1)%nat with (i + n)%nat by lia.
      rewrite mod_wrap by lia. lia.
    - replace (i + 1)%nat with n by lia. rewrite Nat.Div0.mod_same.
      rewrite Nat.mod_small by lia. lia. }
  assert (Forth : (((i + n - 1) mod n + 1) mod n = i)%nat).
  { destruct i as [|i].
    - rewrite (Nat.mod_small (0 + n - 1)) by lia.
      replace (0 + n - 1 + 1)%nat with n by lia. apply Nat.Div0.mod_same.
    - rewrite (mod_wrap (S i + n - 1)) by lia.
      rewrite Nat.mod_small by lia. lia. }
  destruct (accordion_arrow Accordion.ARROW_UP items next ((i + 1) mod n)%nat
                            i N Hn) as [t [Ht Up']];
    [right; split; [reflexivity|symmetry; exact Back]|].
  destruct (accordion_arrow Accordion.ARROW_DOWN items prev
                            ((i + n - 1) mod n)%nat i N Hp) as [t' [Ht' Down']];
    [left; split; [reflexivity|symmetry; exact Forth]|].
  exists next, prev. rewrite Down, Up, Up', Down'.
  repeat split; congruence.
Qed.

Lemma accordion_arrows_undo_witness :
  exists next previous,
    Accordion.onkeydown false Accordion.ARROW_DOWN [11; 12; 13]%nat 13%nat
    = Accordion.Focus next
    /\ Accordion.onkeydown false Accordion.ARROW_UP [11; 12; 13]%nat next
       = Accordion.Focus 13%nat
    /\ Accordion.onkeydown false Accordion.ARROW_UP [11; 12; 13]%nat 13%nat
       = Accordion.Focus previous
    /\ Accordion.onkeydown false Accordion.ARROW_DOWN [11; 12; 13]%nat previous
       = Accordion.Focus 13%nat.
Proof.
  apply (accordion_arrows_undo [11; 12; 13]%nat 13%nat).
  - repeat constructor; simpl; intuition discriminate.
  - right. right. left. reflexivity.
Defined.

Lemma accordion_indexOfFrom_bounds (itemEl : nat) (items : list nat) (from : Z) :
  Accordion.indexOfFrom itemEl items from = -1
  \/ from <= Accordion.indexOfFrom itemEl items from
          < from + Z.of_nat (List.length items).
Proof.
  revert from. induction items as [|x rest IH]; intros from; [now left|].
  simpl Accordion.indexOfFrom. destruct (Nat.eqb x itemEl).
  - right. simpl List.length. lia.
  - destruct (IH (from + 1)) as [E|B]; [now left|right].
    simpl List.length. lia.
Qed.

Lemma accordion_at_some (items : list nat) (index : Z) :
  0 <= index < Z.of_nat (List.length items) ->
  exists target, Accordion.at_ items index = Some target /\ In target items.
Proof.
  intros B. rewrite <- (Z2Nat.id index) by lia. rewrite accordion_at.
  destruct (nth_error items (Z.to_nat index)) as [target|] eqn:T.
  - exists target. split; [reflexivity|]. now apply nth_error_In in T.
  - apply nth_error_None in T. lia.
Qed.

Lemma accordion_onkeydown_moves (key : Accordion.Key) (items : list nat)
      (itemEl : nat) :
  items <> [] ->
  key = Accordion.ARROW_DOWN \/ key = Accordion.ARROW_UP
    \/ key = Accordion.HOME \/ key = Accordion.END ->
  Accordion.onkeydown false key items itemEl
  = match Accordion.keyToIndex key (Accordion.indexOf items itemEl)
                               (Z.of_nat (List.length items)) with
    | Some index =>
        match Accordion.at_ items index with
        | Some trigger => Accordion.Focus trigger
        | None => Accordion.Nothing
        end
    | None => Accordion.Nothing
    end.
Proof.
  intros NE K. destruct items as [|x rest]; [contradiction|].
  destruct K as [-> | [-> | [-> | ->]]]; reflexivity.
Qed.

(** X24. With at least one trigger that is not disabled, ArrowDown,
    ArrowUp, Home and End always focus one of these triggers, also from a
    trigger that is not among them: Home the first, End the last.  With
    none, the four keys do nothing. *)
Theorem accordion_keys_land :
  forall (candidateItems : list nat) (itemEl : nat) (key : Accordion.Key),
    key = Accordion.ARROW_DOWN \/ key = Accordion.ARROW_UP
      \/ key = Accordion.HOME \/ key = Accordion.END ->
    (candidateItems <> [] ->
     exists target,
       In target candidateItems
       /\ Accordion.onkeydown false key candidateItems itemEl
          = Accordion.Focus target
       /\ (key = Accordion.HOME -> hd_error candidateItems = Some target)
       /\ (key = Accordion.END -> last candidateItems itemEl = target))
    /\ Accordion.onkeydown false key [] itemEl = Accordion.Nothing.
Proof.
  intros items itemEl key K. split;
    [|destruct K as [-> | [-> | [-> | ->]]]; reflexivity].
  intros NE. destruct items as [|x rest] eqn:I; [contradiction|].
  rewrite <- I in *. clear NE.
  assert (Pos : 0 < Z.of_nat (List.length items)) by (rewrite I; simpl; lia).
  set (n := Z.of_nat (List.length items)) in *.
  pose proof (accordion_indexOfFrom_bounds itemEl items 0) as B.
  fold (Accordion.indexOf items itemEl) in B.
  set (current := Accordion.indexOf items itemEl) in *.
  assert (Index : exists index,
             Accordion.keyToIndex key current n = Some index
             /\ 0 <= index < n
             /\ (key = Accordion.HOME -> index = 0)
             /\ (key = Accordion.END -> index = n - 1)).
  { destruct K as [-> | [-> | [-> | ->]]]; simpl; eexists;
      (split; [reflexivity|]); (split; [|split; congruence]); try lia.
    - apply Z.rem_bound_pos; lia.
    - destruct (Z.eq_dec (current - 1 + n) (-1)) as [E|E].
      + assert (One_ : n = 1) by lia. rewrite E, One_.
        replace (Z.rem (-1) 1) with 0 by reflexivity. lia.
      + apply Z.rem_bound_pos; lia. }
  destruct Index as [index [E [Bi [Home End_]]]].
  destruct (accordion_at_some items index Bi) as [target [T Hin]].
  exists target. split; [assumption|].
  assert (Run : Accordion.onkeydown false key items itemEl
                = Accordion.Focus target).
  { rewrite accordion_onkeydown_moves;
      [|rewrite I; discriminate|exact K].
    fold current. fold n. now rewrite E, T. }
  split; [exact Run|]. split.
  - intros H. rewrite (Home H) in T. rewrite I in *. simpl in *. exact T.
  - intros H. rewrite (End_ H) in T. unfold Accordion.at_ in T.
    assert (F : (n - 1 <? 0) = false) by (apply Z.ltb_ge; lia).
    rewrite F in T. unfold n in T.
    replace (Z.to_nat (Z.of_nat (List.length items) - 1))
      with (List.length items - 1)%nat in T by lia.
    rewrite nth_error_nth' with (d := itemEl) in T by (rewrite I; simpl; lia).
    injection T as <-. clear. induction items as [|y ys IH]; [reflexivity|].
    destruct ys as [|z zs]; [reflexivity|].
    change (last (y :: z :: zs) itemEl) with (last (z :: zs) itemEl).
    rewrite IH. simpl. now rewrite Nat.sub_0_r.
Qed.

Lemma accordion_keys_land_witness :
  exists target,
    In target [11; 12; 13]%nat
    /\ Accordion.onkeydown false Accordion.ARROW_UP [11; 12; 13]%nat 99%nat
       = Accordion.Focus target
    /\ (Accordion.ARROW_UP = Accordion.HOME ->
        hd_error [11; 12; 13]%nat = Some target)
    /\ (Accordion.ARROW_UP = Accordion.END ->
        last [11; 12; 13]%nat 99%nat = target).
Proof.
  apply (proj1 (accordion_keys_land [11; 12; 13]%nat 99%nat Accordion.ARROW_UP
                                    (or_intror (or_introl eq_refl)))).
  discriminate.
Defined.
